(** * ScenarioManager (leaderboard/scenarios/scenario_manager.py)

    A shallow embedding of the scenario manager of the CARLA leaderboard:
    the object's attributes are a record, its methods are computations in
    a small state/exception monad that also records every call made to a
    collaborator (watchdogs, game clock, agent, behaviour tree, simulator,
    reporter) together with the manager's attributes right after the call.

    Python floats are IEEE doubles and are modelled by Rocq's primitive
    floats; the only float operations the class uses are [<] and [-]. *)

From Stdlib Require Import Floats ZArith Bool List String Ascii Lia Sorted.
From Stdlib Require Import Permutation.
Import ListNotations.
Local Open Scope string_scope.
Local Open Scope list_scope.

(** ** Python exceptions *)

(** An exception value: its class, given by the names of the classes on its
    method resolution order (most derived first), and the argument it was
    built from: a text, [template.format(value)], or another exception as
    in [RuntimeError(e)]. *)
Inductive exc : Type :=
| ExcText (mro : list string) (text : string)
| ExcFormat (mro : list string) (template : string) (value : float)
| ExcWrap (mro : list string) (inner : exc).

Definition exc_mro (e : exc) : list string :=
  match e with
  | ExcText mro _ => mro
  | ExcFormat mro _ _ => mro
  | ExcWrap mro _ => mro
  end.

(** [isinstance(e, cls)], the test an [except cls] clause performs. *)
Definition isinstance (e : exc) (cls : string) : bool :=
  existsb (String.eqb cls) (exc_mro e).

Definition RuntimeError_mro : list string :=
  ["RuntimeError"; "Exception"; "BaseException"].
Definition IndexError_mro : list string :=
  ["IndexError"; "LookupError"; "Exception"; "BaseException"].
Definition TypeError_mro : list string :=
  ["TypeError"; "Exception"; "BaseException"].
Definition AttributeError_mro : list string :=
  ["AttributeError"; "Exception"; "BaseException"].
Definition SystemExit_mro : list string :=
  ["SystemExit"; "BaseException"].

(** Modelled from the spec: [AgentError] (autoagents/agent_wrapper.py) and
    [SensorReceivedNoData] (envs/sensor_interface.py) are declared outside
    this file; the spec calls them the agent-attributable fault and the
    "no sensor data" condition.  Both are ordinary exception classes. *)
Definition AgentError_mro : list string :=
  ["AgentError"; "Exception"; "BaseException"].
Definition SensorReceivedNoData_mro : list string :=
  ["SensorReceivedNoData"; "Exception"; "BaseException"].

(** The errors the interpreter itself raises in this class. *)
Definition IndexError_out_of_range : exc :=
  ExcText IndexError_mro "list index out of range".
Definition TypeError_not_subscriptable : exc :=
  ExcText TypeError_mro "'NoneType' object is not subscriptable".
Definition TypeError_not_callable : exc :=
  ExcText TypeError_mro "'NoneType' object is not callable".
Definition TypeError_float_minus_None : exc :=
  ExcText TypeError_mro "unsupported operand type(s) for -: 'float' and 'NoneType'".
Definition AttributeError_None (attr : string) : exc :=
  ExcText AttributeError_mro ("'NoneType' object has no attribute '" ++ attr ++ "'").
Definition AttributeError_missing (attr : string) : exc :=
  ExcText AttributeError_mro ("'ScenarioManager' object has no attribute '" ++ attr ++ "'").

(** The result of a call: a value, or a raised exception. *)
Inductive outcome (A : Type) : Type :=
| Ok (a : A)
| Raise (e : exc).
Arguments Ok {A} a.
Arguments Raise {A} e.

(** ** Collaborators *)

(** Actors, the behaviour tree, the agent and the spectator camera are
    objects of the simulator and of other modules; the manager only holds
    references to them. *)
Definition Actor := nat.
Definition Tree := nat.
Definition Agent := nat.
Definition Spectator := nat.

Record Location := { loc_x : float; loc_y : float; loc_z : float }.
Record VehicleControl := { throttle : float; steer : float; brake : float }.

(** [carla.Timestamp]. *)
Record Timestamp := {
  frame : Z;
  elapsed_seconds : float;
  delta_seconds : float;
  platform_timestamp : float
}.

(** [py_trees.common.Status]. *)
Inductive Status := RUNNING | SUCCESS | FAILURE | INVALID.

Definition Status_eqb (a b : Status) : bool :=
  match a, b with
  | RUNNING, RUNNING | SUCCESS, SUCCESS | FAILURE, FAILURE | INVALID, INVALID => true
  | _, _ => false
  end.

(** The inner scenario object ([scenario.scenario]) and the object handed
    to [load_scenario]. *)
Record Scenario := { sc_scenario_tree : Tree }.
Record ScenarioClass := {
  sc_scenario : Scenario;
  sc_ego_vehicles : list Actor;
  sc_other_actors : list Actor
}.

Record AgentWrapper := { wrapped_agent : Agent }.

(** What [CarlaDataProvider.get_world()] returns when a world is set. *)
Record World := {
  get_spectator : Spectator;
  get_snapshot : option Timestamp
}.

(** A criterion as [analyze_scenario] reads it. *)
Record Criterion := { criterion_name : string; test_status : string }.

(** ** Watchdog *)

(** Modelled from the spec: the [Watchdog] class
    (srunner.scenariomanager.watchdog) is not part of this file.  Spec 3
    and 4.1: a deadline interval, a running flag set by [start] and cleared
    for good by [stop], a paused flag set by [pause] and cleared by
    [resume], and an expiry that is evaluated only while running and
    unpaused and stays once detected until [start] or [update] resets it.
    [get_status] reports the expiry of a running watchdog only: it is true
    for a watchdog that was never started or is already stopped.  The
    expiry is detected by a timer beside the loop (spec 5), which is where
    the last-refresh timestamp is compared with the wall clock; that timer
    is the environment step [wd_timer_fires], and the record keeps what it
    leaves behind. *)
Record Watchdog := {
  wd_interval : float;
  wd_running : bool;
  wd_paused : bool;
  wd_expired : bool
}.

Definition Watchdog_new (timeout : float) : Watchdog :=
  {| wd_interval := timeout; wd_running := false; wd_paused := false;
     wd_expired := false |}.

Definition wd_start (w : Watchdog) : Watchdog :=
  {| wd_interval := wd_interval w; wd_running := true;
     wd_paused := wd_paused w; wd_expired := false |}.

Definition wd_update (w : Watchdog) : Watchdog :=
  {| wd_interval := wd_interval w; wd_running := wd_running w;
     wd_paused := wd_paused w; wd_expired := false |}.

Definition wd_pause (w : Watchdog) : Watchdog :=
  {| wd_interval := wd_interval w; wd_running := wd_running w;
     wd_paused := true; wd_expired := wd_expired w |}.

Definition wd_resume (w : Watchdog) : Watchdog :=
  {| wd_interval := wd_interval w; wd_running := wd_running w;
     wd_paused := false; wd_expired := wd_expired w |}.

Definition wd_stop (w : Watchdog) : Watchdog :=
  {| wd_interval := wd_interval w; wd_running := false;
     wd_paused := wd_paused w; wd_expired := wd_expired w |}.

(** Modelled from the spec: [get_status()] "returns false once the
    configured interval has elapsed since the last refresh while running
    and unpaused; true otherwise, and always true if never started or
    already stopped" (spec 4.1). *)
Definition wd_get_status (w : Watchdog) : bool :=
  negb (wd_expired w) || negb (wd_running w).

(** Active: running and not paused. *)
Definition wd_active (w : Watchdog) : bool :=
  wd_running w && negb (wd_paused w).

(** The timer beside the loop finds the deadline exceeded. *)
Definition wd_timer_fires (w : Watchdog) : Watchdog :=
  if wd_active w then
    {| wd_interval := wd_interval w; wd_running := wd_running w;
       wd_paused := wd_paused w; wd_expired := true |}
  else w.

Inductive wd_id := WorldWatchdog | AgentWatchdog.
Inductive wd_op := OpStart | OpStop | OpUpdate | OpPause | OpResume.

Definition wd_apply (op : wd_op) : Watchdog -> Watchdog :=
  match op with
  | OpStart => wd_start
  | OpStop => wd_stop
  | OpUpdate => wd_update
  | OpPause => wd_pause
  | OpResume => wd_resume
  end.

Definition wd_op_name (op : wd_op) : string :=
  match op with
  | OpStart => "start"
  | OpStop => "stop"
  | OpUpdate => "update"
  | OpPause => "pause"
  | OpResume => "resume"
  end.

(** ** The manager's attributes *)

(** [None] in an [option] attribute is Python's [None], except for
    [start_game_time] and [repetition_number], which [__init__] does not
    create: there [None] is the missing attribute.  [_spectator] is missing
    after [__init__] and [None] after [cleanup]; reading through it raises
    [AttributeError] in both cases, so one [None] stands for both. *)
Record ScenarioManager := {
  scenario : option Scenario;
  scenario_tree : option Tree;
  scenario_class : option ScenarioClass;
  ego_vehicles : option (list Actor);
  other_actors : option (list Actor);
  repetition_number : option Z;
  _debug_mode : bool;
  _agent : option AgentWrapper;
  _running : bool;
  _timestamp_last_run : float;
  _timeout : float;
  scenario_duration_system : float;
  scenario_duration_game : float;
  start_system_time : option float;
  start_game_time : option float;
  end_system_time : option float;
  end_game_time : option float;
  _spectator : option Spectator;
  _watchdog : option Watchdog;
  _agent_watchdog : option Watchdog
}.

(** [__init__(timeout, debug_mode)], with [timeout] the value of
    [float(timeout)]; it also installs [signal_handler] for SIGINT. *)
Definition init (timeout : float) (debug_mode : bool) : ScenarioManager :=
  {| scenario := None;
     scenario_tree := None;
     scenario_class := None;
     ego_vehicles := None;
     other_actors := None;
     repetition_number := None;
     _debug_mode := debug_mode;
     _agent := None;
     _running := false;
     _timestamp_last_run := 0.0%float;
     _timeout := timeout;
     scenario_duration_system := 0.0%float;
     scenario_duration_game := 0.0%float;
     start_system_time := None;
     start_game_time := None;
     end_system_time := None;
     end_game_time := None;
     _spectator := None;
     _watchdog := None;
     _agent_watchdog := None |}.

(** ** Calls to collaborators *)

Inductive event : Type :=
| EvGameTimeRestart
| EvSetupSensors (ego : Actor) (debug : bool)
| EvWatchdog (which : wd_id) (op : wd_op)
| EvGameTimeTick (timestamp : Timestamp)
| EvDataProviderTick
| EvAgentCall
| EvApplyControl (ego : Actor) (control : VehicleControl)
| EvTreeTick (tree : Tree)
| EvPrintTree (tree : Tree)
| EvSetSpectatorAbove (spectator : Spectator) (ego_location : Location)
| EvWorldTick (timeout : float)
| EvTerminate
| EvAgentCleanup
| EvReport (global_result : string).

(** A trace lists the calls in order, each with the attributes after it. *)
Definition trace := list (event * ScenarioManager).

Definition events (tr : trace) : list event := map fst tr.
Definition snapshots (tr : trace) : list ScenarioManager := map snd tr.

(** ** The monad: attributes, exceptions, trace *)

Record run (A : Type) := Run {
  value : outcome A;
  state : ScenarioManager;
  log : trace
}.
Arguments Run {A} value state log.
Arguments value {A} r.
Arguments state {A} r.
Arguments log {A} r.

Definition M (A : Type) := ScenarioManager -> run A.

Definition ret {A} (a : A) : M A := fun m => Run (Ok a) m [].
Definition raise {A} (e : exc) : M A := fun m => Run (Raise e) m [].

Definition bind {A B} (c : M A) (k : A -> M B) : M B :=
  fun m =>
    let r := c m in
    match value r with
    | Ok a => let r' := k a (state r) in
              Run (value r') (state r') (log r ++ log r')
    | Raise e => Run (Raise e) (state r) (log r)
    end.

(** [try: c  except ... as e: h e]; the handler decides which exceptions it
    takes. *)
Definition try_except {A} (c : M A) (h : exc -> M A) : M A :=
  fun m =>
    let r := c m in
    match value r with
    | Ok a => r
    | Raise e => let r' := h e (state r) in
                 Run (value r') (state r') (log r ++ log r')
    end.

Definition gets {A} (f : ScenarioManager -> A) : M A := fun m => Run (Ok (f m)) m [].
Definition modify (f : ScenarioManager -> ScenarioManager) : M unit :=
  fun m => Run (Ok tt) (f m) [].
Definition emit (e : event) : M unit := fun m => Run (Ok tt) m [(e, m)].

Declare Scope sm_scope.
Delimit Scope sm_scope with sm.
Notation "x <- c ;; k" := (bind c (fun x => k))
  (at level 61, c at next level, right associativity) : sm_scope.
Notation "c ;; k" := (bind c (fun _ => k))
  (at level 61, right associativity) : sm_scope.
Local Open Scope sm_scope.

Definition when (b : bool) (c : M unit) : M unit := if b then c else ret tt.

(** ** Attribute assignment *)

Definition set_running (v : bool) (m : ScenarioManager) : ScenarioManager :=
  {| scenario := scenario m; scenario_tree := scenario_tree m;
     scenario_class := scenario_class m; ego_vehicles := ego_vehicles m;
     other_actors := other_actors m; repetition_number := repetition_number m;
     _debug_mode := _debug_mode m; _agent := _agent m; _running := v;
     _timestamp_last_run := _timestamp_last_run m; _timeout := _timeout m;
     scenario_duration_system := scenario_duration_system m;
     scenario_duration_game := scenario_duration_game m;
     start_system_time := start_system_time m;
     start_game_time := start_game_time m;
     end_system_time := end_system_time m; end_game_time := end_game_time m;
     _spectator := _spectator m; _watchdog := _watchdog m;
     _agent_watchdog := _agent_watchdog m |}.

Definition set_timestamp_last_run (v : float) (m : ScenarioManager) : ScenarioManager :=
  {| scenario := scenario m; scenario_tree := scenario_tree m;
     scenario_class := scenario_class m; ego_vehicles := ego_vehicles m;
     other_actors := other_actors m; repetition_number := repetition_number m;
     _debug_mode := _debug_mode m; _agent := _agent m; _running := _running m;
     _timestamp_last_run := v; _timeout := _timeout m;
     scenario_duration_system := scenario_duration_system m;
     scenario_duration_game := scenario_duration_game m;
     start_system_time := start_system_time m;
     start_game_time := start_game_time m;
     end_system_time := end_system_time m; end_game_time := end_game_time m;
     _spectator := _spectator m; _watchdog := _watchdog m;
     _agent_watchdog := _agent_watchdog m |}.

Definition set_agent (v : option AgentWrapper) (m : ScenarioManager) : ScenarioManager :=
  {| scenario := scenario m; scenario_tree := scenario_tree m;
     scenario_class := scenario_class m; ego_vehicles := ego_vehicles m;
     other_actors := other_actors m; repetition_number := repetition_number m;
     _debug_mode := _debug_mode m; _agent := v; _running := _running m;
     _timestamp_last_run := _timestamp_last_run m; _timeout := _timeout m;
     scenario_duration_system := scenario_duration_system m;
     scenario_duration_game := scenario_duration_game m;
     start_system_time := start_system_time m;
     start_game_time := start_game_time m;
     end_system_time := end_system_time m; end_game_time := end_game_time m;
     _spectator := _spectator m; _watchdog := _watchdog m;
     _agent_watchdog := _agent_watchdog m |}.

Definition set_spectator (v : option Spectator) (m : ScenarioManager) : ScenarioManager :=
  {| scenario := scenario m; scenario_tree := scenario_tree m;
     scenario_class := scenario_class m; ego_vehicles := ego_vehicles m;
     other_actors := other_actors m; repetition_number := repetition_number m;
     _debug_mode := _debug_mode m; _agent := _agent m; _running := _running m;
     _timestamp_last_run := _timestamp_last_run m; _timeout := _timeout m;
     scenario_duration_system := scenario_duration_system m;
     scenario_duration_game := scenario_duration_game m;
     start_system_time := start_system_time m;
     start_game_time := start_game_time m;
     end_system_time := end_system_time m; end_game_time := end_game_time m;
     _spectator := v; _watchdog := _watchdog m;
     _agent_watchdog := _agent_watchdog m |}.

Definition set_watchdog (v : option Watchdog) (m : ScenarioManager) : ScenarioManager :=
  {| scenario := scenario m; scenario_tree := scenario_tree m;
     scenario_class := scenario_class m; ego_vehicles := ego_vehicles m;
     other_actors := other_actors m; repetition_number := repetition_number m;
     _debug_mode := _debug_mode m; _agent := _agent m; _running := _running m;
     _timestamp_last_run := _timestamp_last_run m; _timeout := _timeout m;
     scenario_duration_system := scenario_duration_system m;
     scenario_duration_game := scenario_duration_game m;
     start_system_time := start_system_time m;
     start_game_time := start_game_time m;
     end_system_time := end_system_time m; end_game_time := end_game_time m;
     _spectator := _spectator m; _watchdog := v;
     _agent_watchdog := _agent_watchdog m |}.

Definition set_agent_watchdog (v : option Watchdog) (m : ScenarioManager) : ScenarioManager :=
  {| scenario := scenario m; scenario_tree := scenario_tree m;
     scenario_class := scenario_class m; ego_vehicles := ego_vehicles m;
     other_actors := other_actors m; repetition_number := repetition_number m;
     _debug_mode := _debug_mode m; _agent := _agent m; _running := _running m;
     _timestamp_last_run := _timestamp_last_run m; _timeout := _timeout m;
     scenario_duration_system := scenario_duration_system m;
     scenario_duration_game := scenario_duration_game m;
     start_system_time := start_system_time m;
     start_game_time := start_game_time m;
     end_system_time := end_system_time m; end_game_time := end_game_time m;
     _spectator := _spectator m; _watchdog := _watchdog m;
     _agent_watchdog := v |}.

Definition set_start_system_time (v : option float) (m : ScenarioManager) : ScenarioManager :=
  {| scenario := scenario m; scenario_tree := scenario_tree m;
     scenario_class := scenario_class m; ego_vehicles := ego_vehicles m;
     other_actors := other_actors m; repetition_number := repetition_number m;
     _debug_mode := _debug_mode m; _agent := _agent m; _running := _running m;
     _timestamp_last_run := _timestamp_last_run m; _timeout := _timeout m;
     scenario_duration_system := scenario_duration_system m;
     scenario_duration_game := scenario_duration_game m;
     start_system_time := v;
     start_game_time := start_game_time m;
     end_system_time := end_system_time m; end_game_time := end_game_time m;
     _spectator := _spectator m; _watchdog := _watchdog m;
     _agent_watchdog := _agent_watchdog m |}.

Definition set_start_game_time (v : option float) (m : ScenarioManager) : ScenarioManager :=
  {| scenario := scenario m; scenario_tree := scenario_tree m;
     scenario_class := scenario_class m; ego_vehicles := ego_vehicles m;
     other_actors := other_actors m; repetition_number := repetition_number m;
     _debug_mode := _debug_mode m; _agent := _agent m; _running := _running m;
     _timestamp_last_run := _timestamp_last_run m; _timeout := _timeout m;
     scenario_duration_system := scenario_duration_system m;
     scenario_duration_game := scenario_duration_game m;
     start_system_time := start_system_time m;
     start_game_time := v;
     end_system_time := end_system_time m; end_game_time := end_game_time m;
     _spectator := _spectator m; _watchdog := _watchdog m;
     _agent_watchdog := _agent_watchdog m |}.

Definition set_end_system_time (v : option float) (m : ScenarioManager) : ScenarioManager :=
  {| scenario := scenario m; scenario_tree := scenario_tree m;
     scenario_class := scenario_class m; ego_vehicles := ego_vehicles m;
     other_actors := other_actors m; repetition_number := repetition_number m;
     _debug_mode := _debug_mode m; _agent := _agent m; _running := _running m;
     _timestamp_last_run := _timestamp_last_run m; _timeout := _timeout m;
     scenario_duration_system := scenario_duration_system m;
     scenario_duration_game := scenario_duration_game m;
     start_system_time := start_system_time m;
     start_game_time := start_game_time m;
     end_system_time := v; end_game_time := end_game_time m;
     _spectator := _spectator m; _watchdog := _watchdog m;
     _agent_watchdog := _agent_watchdog m |}.

Definition set_end_game_time (v : option float) (m : ScenarioManager) : ScenarioManager :=
  {| scenario := scenario m; scenario_tree := scenario_tree m;
     scenario_class := scenario_class m; ego_vehicles := ego_vehicles m;
     other_actors := other_actors m; repetition_number := repetition_number m;
     _debug_mode := _debug_mode m; _agent := _agent m; _running := _running m;
     _timestamp_last_run := _timestamp_last_run m; _timeout := _timeout m;
     scenario_duration_system := scenario_duration_system m;
     scenario_duration_game := scenario_duration_game m;
     start_system_time := start_system_time m;
     start_game_time := start_game_time m;
     end_system_time := end_system_time m; end_game_time := v;
     _spectator := _spectator m; _watchdog := _watchdog m;
     _agent_watchdog := _agent_watchdog m |}.

Definition set_scenario_duration_system (v : float) (m : ScenarioManager) : ScenarioManager :=
  {| scenario := scenario m; scenario_tree := scenario_tree m;
     scenario_class := scenario_class m; ego_vehicles := ego_vehicles m;
     other_actors := other_actors m; repetition_number := repetition_number m;
     _debug_mode := _debug_mode m; _agent := _agent m; _running := _running m;
     _timestamp_last_run := _timestamp_last_run m; _timeout := _timeout m;
     scenario_duration_system := v;
     scenario_duration_game := scenario_duration_game m;
     start_system_time := start_system_time m;
     start_game_time := start_game_time m;
     end_system_time := end_system_time m; end_game_time := end_game_time m;
     _spectator := _spectator m; _watchdog := _watchdog m;
     _agent_watchdog := _agent_watchdog m |}.

Definition set_scenario_duration_game (v : float) (m : ScenarioManager) : ScenarioManager :=
  {| scenario := scenario m; scenario_tree := scenario_tree m;
     scenario_class := scenario_class m; ego_vehicles := ego_vehicles m;
     other_actors := other_actors m; repetition_number := repetition_number m;
     _debug_mode := _debug_mode m; _agent := _agent m; _running := _running m;
     _timestamp_last_run := _timestamp_last_run m; _timeout := _timeout m;
     scenario_duration_system := scenario_duration_system m;
     scenario_duration_game := v;
     start_system_time := start_system_time m;
     start_game_time := start_game_time m;
     end_system_time := end_system_time m; end_game_time := end_game_time m;
     _spectator := _spectator m; _watchdog := _watchdog m;
     _agent_watchdog := _agent_watchdog m |}.

(** The seven assignments at the top of [load_scenario]. *)
Definition bind_scenario (sc : ScenarioClass) (agent : Agent) (rep_number : Z)
    (m : ScenarioManager) : ScenarioManager :=
  {| scenario := Some (sc_scenario sc);
     scenario_tree := Some (sc_scenario_tree (sc_scenario sc));
     scenario_class := Some sc;
     ego_vehicles := Some (sc_ego_vehicles sc);
     other_actors := Some (sc_other_actors sc);
     repetition_number := Some rep_number;
     _debug_mode := _debug_mode m;
     _agent := Some {| wrapped_agent := agent |};
     _running := _running m;
     _timestamp_last_run := _timestamp_last_run m; _timeout := _timeout m;
     scenario_duration_system := scenario_duration_system m;
     scenario_duration_game := scenario_duration_game m;
     start_system_time := start_system_time m;
     start_game_time := start_game_time m;
     end_system_time := end_system_time m; end_game_time := end_game_time m;
     _spectator := _spectator m; _watchdog := _watchdog m;
     _agent_watchdog := _agent_watchdog m |}.

(** The assignments of [cleanup]. *)
Definition reset_parameters (m : ScenarioManager) : ScenarioManager :=
  {| scenario := scenario m; scenario_tree := scenario_tree m;
     scenario_class := scenario_class m; ego_vehicles := ego_vehicles m;
     other_actors := other_actors m; repetition_number := repetition_number m;
     _debug_mode := _debug_mode m; _agent := _agent m; _running := _running m;
     _timestamp_last_run := 0.0%float; _timeout := _timeout m;
     scenario_duration_system := 0.0%float;
     scenario_duration_game := 0.0%float;
     start_system_time := None;
     start_game_time := start_game_time m;
     end_system_time := None; end_game_time := None;
     _spectator := None; _watchdog := None;
     _agent_watchdog := None |}.

(** ** Helpers for attribute reads *)

Definition watchdog_attr (which : wd_id) : ScenarioManager -> option Watchdog :=
  match which with
  | WorldWatchdog => _watchdog
  | AgentWatchdog => _agent_watchdog
  end.

Definition set_watchdog_attr (which : wd_id)
    : option Watchdog -> ScenarioManager -> ScenarioManager :=
  match which with
  | WorldWatchdog => set_watchdog
  | AgentWatchdog => set_agent_watchdog
  end.

(** [self._watchdog.op()] or [self._agent_watchdog.op()]: the attribute
    must hold a watchdog. *)
Definition wd_call (which : wd_id) (op : wd_op) : M unit :=
  w <- gets (watchdog_attr which) ;;
  match w with
  | None => raise (AttributeError_None (wd_op_name op))
  | Some w =>
      modify (set_watchdog_attr which (Some (wd_apply op w))) ;;
      emit (EvWatchdog which op)
  end.

(** [w and not w.get_status()]. *)
Definition set_and_expired (w : option Watchdog) : bool :=
  match w with
  | Some w => negb (wd_get_status w)
  | None => false
  end.

(** [l[0]]. *)
Definition subscript0 {A} (l : option (list A)) : M A :=
  match l with
  | None => raise TypeError_not_subscriptable
  | Some [] => raise IndexError_out_of_range
  | Some (a :: _) => ret a
  end.

Definition is_set {A} (o : option A) : bool :=
  match o with Some _ => true | None => false end.

(** ** The methods *)

(** [signal_handler(signum, frame)] *)
Definition signal_handler : M unit :=
  agent_watchdog <- gets _agent_watchdog ;;
  if set_and_expired agent_watchdog then
    timeout <- gets _timeout ;;
    raise (ExcFormat RuntimeError_mro
             "Agent took longer than {}s to send its command" timeout)
  else
    watchdog <- gets _watchdog ;;
    if set_and_expired watchdog then
      timeout <- gets _timeout ;;
      raise (ExcFormat RuntimeError_mro
               "The simulation took longer than {}s to update" timeout)
    else
      modify (set_running false).

(** [cleanup()] *)
Definition cleanup : M unit := modify reset_parameters.

(** [load_scenario(scenario, agent, rep_number)]; [world] is what
    [CarlaDataProvider.get_world()] returns.  [GameTime.restart()], the
    [AgentWrapper] constructor and [setup_sensors] are taken to return. *)
Definition load_scenario (world : option World) (scenario_ : ScenarioClass)
    (agent : Agent) (rep_number : Z) : M unit :=
  emit EvGameTimeRestart ;;
  modify (bind_scenario scenario_ agent rep_number) ;;
  match world with
  | None => raise (AttributeError_None "get_spectator")
  | Some w => modify (set_spectator (Some (get_spectator w)))
  end ;;
  egos <- gets ego_vehicles ;;
  ego <- subscript0 egos ;;
  debug <- gets _debug_mode ;;
  emit (EvSetupSensors ego debug).

(** [get_running_status()] *)
Definition get_running_status (m : ScenarioManager) : bool :=
  match _watchdog m with
  | Some w => wd_get_status w
  | None => false
  end.

(** What one call of [_tick_scenario] finds outside the manager: the
    world the data provider holds, what the agent does when called, the
    status of the tree after [tick_once], and where the ego vehicle is. *)
Record tick_env := {
  te_world : option World;
  te_agent : outcome VehicleControl;
  te_tree_status : Status;
  te_ego_location : Location
}.

(** [self._agent()] *)
Definition agent_call (env : tick_env) : M VehicleControl :=
  agent <- gets _agent ;;
  match agent with
  | None => raise TypeError_not_callable
  | Some _ =>
      emit EvAgentCall ;;
      match te_agent env with
      | Ok control => ret control
      | Raise e => raise e
      end
  end.

(** The two [except] clauses around the agent call. *)
Definition agent_except (e : exc) : M VehicleControl :=
  if isinstance e "SensorReceivedNoData" then raise (ExcWrap RuntimeError_mro e)
  else if isinstance e "Exception" then raise (ExcWrap AgentError_mro e)
  else raise e.

(** The body of the [if] of [_tick_scenario]. *)
Definition tick_body (env : tick_env) (timestamp : Timestamp) : M unit :=
  modify (set_timestamp_last_run (elapsed_seconds timestamp)) ;;
  wd_call WorldWatchdog OpUpdate ;;
  emit (EvGameTimeTick timestamp) ;;
  emit EvDataProviderTick ;;
  wd_call WorldWatchdog OpPause ;;
  ego_action <-
    try_except
      (wd_call AgentWatchdog OpResume ;;
       wd_call AgentWatchdog OpUpdate ;;
       ego_action <- agent_call env ;;
       wd_call AgentWatchdog OpPause ;;
       ret ego_action)
      agent_except ;;
  wd_call WorldWatchdog OpResume ;;
  egos <- gets ego_vehicles ;;
  ego <- subscript0 egos ;;
  emit (EvApplyControl ego ego_action) ;;
  tree <- gets scenario_tree ;;
  match tree with
  | None => raise (AttributeError_None "tick_once")
  | Some t =>
      emit (EvTreeTick t) ;;
      debug <- gets _debug_mode ;;
      when debug (emit (EvPrintTree t)) ;;
      when (negb (Status_eqb (te_tree_status env) RUNNING))
           (modify (set_running false))
  end ;;
  egos <- gets ego_vehicles ;;
  _ <- subscript0 egos ;;
  spectator <- gets _spectator ;;
  match spectator with
  | None => raise (AttributeError_None "set_transform")
  | Some s => emit (EvSetSpectatorAbove s (te_ego_location env))
  end.

(** [_tick_scenario(timestamp)] *)
Definition _tick_scenario (env : tick_env) (timestamp : Timestamp) : M unit :=
  last_run <- gets _timestamp_last_run ;;
  running <- gets _running ;;
  when (PrimFloat.ltb last_run (elapsed_seconds timestamp) && running)
       (tick_body env timestamp) ;;
  running <- gets _running ;;
  status <- gets get_running_status ;;
  when (running && status)
       match te_world env with
       | None => raise (AttributeError_None "tick")
       | Some _ => timeout <- gets _timeout ;; emit (EvWorldTick timeout)
       end.

(** The first part of [run_scenario], up to [self._running = True];
    [now] is [time.time()] and [game_now] is [GameTime.get_time()]. *)
Definition run_scenario_start (now game_now : float) : M unit :=
  modify (set_start_system_time (Some now)) ;;
  modify (set_start_game_time (Some game_now)) ;;
  timeout <- gets _timeout ;;
  modify (set_watchdog (Some (Watchdog_new timeout))) ;;
  wd_call WorldWatchdog OpStart ;;
  timeout <- gets _timeout ;;
  modify (set_agent_watchdog (Some (Watchdog_new timeout))) ;;
  wd_call AgentWatchdog OpStart ;;
  modify (set_running true).

(** [timestamp] as the loop computes it from the world and its snapshot. *)
Definition current_timestamp (env : tick_env) : option Timestamp :=
  match te_world env with
  | Some world => get_snapshot world
  | None => None
  end.

(** How a bounded number of iterations of the [while] loop ends: the loop
    has left, or it is still polling. *)
Inductive progress := Finished | Polling.

(** The [while self._running] loop, one element of [polls] per iteration. *)
Fixpoint run_loop (polls : list tick_env) : M progress :=
  match polls with
  | [] =>
      running <- gets _running ;;
      ret (if running then Polling else Finished)
  | env :: polls' =>
      running <- gets _running ;;
      if running then
        match current_timestamp env with
        | Some timestamp => _tick_scenario env timestamp
        | None => ret tt
        end ;;
        run_loop polls'
      else ret Finished
  end.

(** [run_scenario()] *)
Definition run_scenario (now game_now : float) (polls : list tick_env) : M progress :=
  run_scenario_start now game_now ;;
  run_loop polls.

(** What the scenario object shows when [analyze_scenario] reads it. *)
Record ScenarioState := {
  get_criteria : list Criterion;
  timeout_node_timeout : bool
}.

Definition ESC : string := String (ascii_of_nat 27) EmptyString.
Definition GREEN_SUCCESS : string := (ESC ++ "[92m") ++ "SUCCESS" ++ (ESC ++ "[0m").
Definition RED_FAILURE : string := (ESC ++ "[91m") ++ "FAILURE" ++ (ESC ++ "[0m").

(** The value of [global_result] at the end of [analyze_scenario]. *)
Definition global_result_of (st : ScenarioState) : string :=
  let global_result := GREEN_SUCCESS in
  let global_result :=
    fold_left
      (fun global_result criterion =>
         if negb (String.eqb (test_status criterion) "SUCCESS")
         then RED_FAILURE else global_result)
      (get_criteria st) global_result in
  if timeout_node_timeout st then RED_FAILURE else global_result.

(** [analyze_scenario()]; the last line builds the [ResultOutputProvider]. *)
Definition analyze_scenario (st : ScenarioState) : M unit :=
  sc <- gets scenario ;;
  match sc with
  | None => raise (AttributeError_None "get_criteria")
  | Some _ => emit (EvReport (global_result_of st))
  end.

(** What one call of [stop_scenario] reads outside the manager. *)
Record stop_env := {
  time_time : float;
  GameTime_get_time : float;
  scenario_state : ScenarioState
}.

Definition stop_if_set (which : wd_id) : M unit :=
  w <- gets (watchdog_attr which) ;;
  when (is_set w) (wd_call which OpStop).

(** [stop_scenario()] *)
Definition stop_scenario (env : stop_env) : M unit :=
  stop_if_set WorldWatchdog ;;
  stop_if_set AgentWatchdog ;;
  modify (set_end_system_time (Some (time_time env))) ;;
  modify (set_end_game_time (Some (GameTime_get_time env))) ;;
  start_system <- gets start_system_time ;;
  match start_system with
  | None => raise TypeError_float_minus_None
  | Some start => modify (set_scenario_duration_system (time_time env - start)%float)
  end ;;
  start_game <- gets start_game_time ;;
  match start_game with
  | None => raise (AttributeError_missing "start_game_time")
  | Some start => modify (set_scenario_duration_game (GameTime_get_time env - start)%float)
  end ;;
  status <- gets get_running_status ;;
  when status
    (sc <- gets scenario ;;
     when (is_set sc) (emit EvTerminate) ;;
     agent <- gets _agent ;;
     when (is_set agent) (emit EvAgentCleanup ;; modify (set_agent None)) ;;
     analyze_scenario (scenario_state env)).

(** [stop_scenario] up to its running-status check (lines 211 to 221): the
    watchdogs that are set are stopped, the clocks read and the two
    durations computed. *)
Definition before_status_check (env : stop_env) : M unit :=
  stop_if_set WorldWatchdog ;;
  stop_if_set AgentWatchdog ;;
  modify (set_end_system_time (Some (time_time env))) ;;
  modify (set_end_game_time (Some (GameTime_get_time env))) ;;
  start_system <- gets start_system_time ;;
  match start_system with
  | None => raise TypeError_float_minus_None
  | Some start => modify (set_scenario_duration_system (time_time env - start)%float)
  end ;;
  start_game <- gets start_game_time ;;
  match start_game with
  | None => raise (AttributeError_missing "start_game_time")
  | Some start => modify (set_scenario_duration_game (GameTime_get_time env - start)%float)
  end.

(** [stop_scenario] from its running-status check on (lines 223 to 231). *)
Definition from_status_check (env : stop_env) : M unit :=
  status <- gets get_running_status ;;
  when status
    (sc <- gets scenario ;;
     when (is_set sc) (emit EvTerminate) ;;
     agent <- gets _agent ;;
     when (is_set agent) (emit EvAgentCleanup ;; modify (set_agent None)) ;;
     analyze_scenario (scenario_state env)).

(** ** Observations on states and traces *)

(** A watchdog attribute holds a watchdog whose status is [False]. *)
Definition watchdog_expired (w : option Watchdog) : Prop :=
  exists w', w = Some w' /\ wd_get_status w' = false.

(** Both watchdogs are running and unpaused. *)
Definition both_active (m : ScenarioManager) : bool :=
  match _watchdog m, _agent_watchdog m with
  | Some world, Some agent => wd_active world && wd_active agent
  | _, _ => false
  end.

(** The calls that make up a tick body. *)
Definition tick_body_event (e : event) : bool :=
  match e with
  | EvGameTimeTick _ | EvAgentCall | EvApplyControl _ _ | EvTreeTick _ => true
  | _ => false
  end.

(** The simulated timestamps for which the game clock was advanced, in the
    order of the calls: one per tick body that got under way. *)
Fixpoint ticked (evs : list event) : list float :=
  match evs with
  | [] => []
  | EvGameTimeTick timestamp :: evs' => elapsed_seconds timestamp :: ticked evs'
  | _ :: evs' => ticked evs'
  end.

(** Scenario termination, agent release, result analysis. *)
Definition closing_event (e : event) : bool :=
  match e with
  | EvTerminate | EvAgentCleanup | EvReport _ => true
  | _ => false
  end.

(** Successive calls of [_tick_scenario], one per frame, whatever each call
    returns or raises: the attributes after the last call and the trace of
    all of them. *)
Fixpoint tick_calls (frames : list (tick_env * Timestamp)) (m : ScenarioManager)
    : ScenarioManager * trace :=
  match frames with
  | [] => (m, [])
  | (env, timestamp) :: frames' =>
      let r := _tick_scenario env timestamp m in
      let rest := tick_calls frames' (state r) in
      (fst rest, log r ++ snd rest)
  end.

(** No snapshot of the trace has both watchdogs active. *)
Definition all_exclusive (tr : trace) : bool :=
  forallb (fun p => negb (both_active (snd p))) tr.

Definition is_world_pause (e : event) : bool :=
  match e with
  | EvWatchdog WorldWatchdog OpPause => true
  | _ => false
  end.

Definition has_world_pause (tr : trace) : bool :=
  existsb (fun p => is_world_pause (fst p)) tr.

(** From the first pause of the world watchdog on, no snapshot has both
    watchdogs active. *)
Fixpoint exclusive_from_pause (tr : trace) : bool :=
  match tr with
  | [] => true
  | p :: rest =>
      if is_world_pause (fst p)
      then negb (both_active (snd p)) && all_exclusive rest
      else exclusive_from_pause rest
  end.

(** [holds c m Q]: running [c] on the attributes [m] ends with a result,
    attributes and a trace that satisfy [Q]. *)
Definition holds {A} (c : M A) (m : ScenarioManager)
    (Q : outcome A -> ScenarioManager -> trace -> Prop) : Prop :=
  Q (value (c m)) (state (c m)) (log (c m)).

(** ** Sample inputs *)

Definition sample_timestamp (n : Z) (t : float) : Timestamp :=
  {| frame := n; elapsed_seconds := t; delta_seconds := 0.5%float;
     platform_timestamp := 0%float |}.

Definition sample_world (timestamp : option Timestamp) : World :=
  {| get_spectator := 9; get_snapshot := timestamp |}.

Definition sample_control : VehicleControl :=
  {| throttle := 1%float; steer := 0%float; brake := 0%float |}.

Definition sample_env (timestamp : option Timestamp)
    (agent : outcome VehicleControl) (status : Status) : tick_env :=
  {| te_world := Some (sample_world timestamp);
     te_agent := agent;
     te_tree_status := status;
     te_ego_location := {| loc_x := 0%float; loc_y := 0%float; loc_z := 0%float |} |}.

Definition sample_scenario : ScenarioClass :=
  {| sc_scenario := {| sc_scenario_tree := 3 |};
     sc_ego_vehicles := [1];
     sc_other_actors := [2] |}.

Definition scenario_without_ego : ScenarioClass :=
  {| sc_scenario := {| sc_scenario_tree := 3 |};
     sc_ego_vehicles := [];
     sc_other_actors := [2] |}.

(** A manager built with a 5 s timeout and loaded with [sample_scenario]. *)
Definition loaded : ScenarioManager :=
  state (load_scenario (Some (sample_world None)) sample_scenario 4 0
           (init 5%float false)).

(** [loaded] after a run of two frames: the tree is RUNNING after the first
    tick and SUCCESS after the second. *)
Definition after_run : ScenarioManager :=
  state (run_scenario 100%float 0%float
           [sample_env (Some (sample_timestamp 1 0.5%float)) (Ok sample_control) RUNNING;
            sample_env (Some (sample_timestamp 2 1%float)) (Ok sample_control) SUCCESS]
           loaded).

(** [loaded] after one tick of a run, the timer of the world watchdog
    having fired while the simulator computed the next frame. *)
Definition after_stall : ScenarioManager :=
  let m := state (run_scenario 100%float 0%float
                    [sample_env (Some (sample_timestamp 1 0.5%float)) (Ok sample_control) RUNNING]
                    loaded) in
  set_watchdog (option_map wd_timer_fires (_watchdog m)) m.

(** [loaded] in the middle of the first agent call of a run, the timer of
    the agent watchdog having fired while the agent computed. *)
Definition agent_stall : ScenarioManager :=
  let r := run_scenario 100%float 0%float
             [sample_env (Some (sample_timestamp 1 0.5%float)) (Ok sample_control) RUNNING]
             loaded in
  let is_agent_call := fun p : event * ScenarioManager =>
                         match fst p with EvAgentCall => true | _ => false end in
  let m := match find is_agent_call (log r) with
           | Some p => snd p
           | None => loaded
           end in
  set_agent_watchdog (option_map wd_timer_fires (_agent_watchdog m)) m.


Definition all_passed : ScenarioState :=
  {| get_criteria := [ {| criterion_name := "CollisionTest"; test_status := "SUCCESS" |};
                       {| criterion_name := "RouteCompletionTest"; test_status := "SUCCESS" |} ];
     timeout_node_timeout := false |}.

Definition stop_at (now game_now : float) : stop_env :=
  {| time_time := now; GameTime_get_time := game_now; scenario_state := all_passed |}.

Definition SystemExit_0 : exc := ExcText SystemExit_mro "0".
Definition SensorReceivedNoData_front : exc :=
  ExcText SensorReceivedNoData_mro "A sensor took too long to send their data".
Definition ValueError_bad_steer : exc :=
  ExcText ["ValueError"; "Exception"; "BaseException"] "steer out of range".

(** ** Further observations *)

Definition is_world_tick (e : event) : bool :=
  match e with EvWorldTick _ => true | _ => false end.

Definition is_tree_tick (e : event) : bool :=
  match e with EvTreeTick _ => true | _ => false end.

(** The calls of a tick that come after the agent call. *)
Definition after_agent_event (e : event) : bool :=
  match e with
  | EvApplyControl _ _ | EvTreeTick _ | EvPrintTree _
  | EvSetSpectatorAbove _ _ | EvWorldTick _ => true
  | _ => false
  end.

Definition is_start_or_stop (e : event) : bool :=
  match e with
  | EvWatchdog _ OpStart | EvWatchdog _ OpStop => true
  | _ => false
  end.

(** The calls of a tick body that runs to its end, in the order of the
    source, followed by the frame advance when there is one. *)
Definition tick_sequence (timestamp : Timestamp) (ego : Actor)
    (control : VehicleControl) (tree : Tree) (debug : bool)
    (spectator : Spectator) (ego_location : Location)
    (advance : option float) : list event :=
  [EvWatchdog WorldWatchdog OpUpdate;
   EvGameTimeTick timestamp;
   EvDataProviderTick;
   EvWatchdog WorldWatchdog OpPause;
   EvWatchdog AgentWatchdog OpResume;
   EvWatchdog AgentWatchdog OpUpdate;
   EvAgentCall;
   EvWatchdog AgentWatchdog OpPause;
   EvWatchdog WorldWatchdog OpResume;
   EvApplyControl ego control;
   EvTreeTick tree]
  ++ (if debug then [EvPrintTree tree] else [])
  ++ [EvSetSpectatorAbove spectator ego_location]
  ++ match advance with
     | Some timeout => [EvWorldTick timeout]
     | None => []
     end.

(** The attributes a call of [_tick_scenario] may assign. *)
Definition with_tick_attributes (s m : ScenarioManager) : ScenarioManager :=
  set_running (_running s)
    (set_timestamp_last_run (_timestamp_last_run s)
       (set_watchdog (_watchdog s)
          (set_agent_watchdog (_agent_watchdog s) m))).

Definition is_agent_call (e : event) : bool :=
  match e with EvAgentCall => true | _ => false end.

(** What a tick body needs of the manager to run to its end: an agent, an
    ego vehicle, a tree and a spectator, as a [load_scenario] that
    returned leaves them. *)
Definition ready (m : ScenarioManager) : Prop :=
  is_set (_agent m) = true
  /\ (exists ego rest, ego_vehicles m = Some (ego :: rest))
  /\ is_set (scenario_tree m) = true
  /\ is_set (_spectator m) = true.

(** A poll in which the simulator shows a frame at time [t], the agent
    returns a control and the tree ends the tick with [status]. *)
Definition frame_at (env : tick_env) (t : float) (status : Status) : Prop :=
  (exists world timestamp,
      te_world env = Some world
      /\ get_snapshot world = Some timestamp
      /\ elapsed_seconds timestamp = t)
  /\ (exists control, te_agent env = Ok control)
  /\ te_tree_status env = status.

(** [loaded] run to its end, stopped, and started again without a load:
    [stop_scenario] has released the agent. *)
Definition restarted : ScenarioManager :=
  state (run_scenario_start 120%float 0%float
           (state (stop_scenario (stop_at 110%float 0.5%float) after_run))).

(** * Properties *)

(** ** The order on floats *)

Lemma SFltb_irrefl (x : spec_float) : SFltb x x = false.
Proof.
  unfold SFltb, SFcompare.
  destruct x as [s|s| |s m e]; try destruct s; try reflexivity;
    rewrite Z.compare_refl, Pos.compare_cont_refl; reflexivity.
Qed.

Lemma SFltb_trans (x y z : spec_float) :
  SFltb x y = true -> SFltb y z = true -> SFltb x z = true.
Proof.
  unfold SFltb, SFcompare.
  destruct x as [sx|sx| |sx mx ex], y as [sy|sy| |sy my ey], z as [sz|sz| |sz mz ez];
    try destruct sx; try destruct sy; try destruct sz; simpl; try congruence;
    destruct (Z.compare_spec ex ey), (Z.compare_spec ey ez), (Z.compare_spec ex ez);
    try congruence; try lia; subst;
    rewrite ?Pos.compare_cont_spec; simpl;
    destruct (Pos.compare_spec mx my), (Pos.compare_spec my mz), (Pos.compare_spec mx mz);
    simpl; try congruence; try lia.
Qed.

Lemma float_ltb_irrefl (x : float) : PrimFloat.ltb x x = false.
Proof. rewrite ltb_spec. apply SFltb_irrefl. Qed.

Lemma float_ltb_trans (x y z : float) :
  PrimFloat.ltb x y = true -> PrimFloat.ltb y z = true -> PrimFloat.ltb x z = true.
Proof. rewrite !ltb_spec. apply SFltb_trans. Qed.

(** ** Exceptions *)

Lemma watchdog_expired_iff (w : option Watchdog) :
  watchdog_expired w <-> set_and_expired w = true.
Proof.
  unfold watchdog_expired, set_and_expired. split.
  - intros [w' [-> H]]. now rewrite H.
  - destruct w as [w'|]; [|discriminate].
    intros H. exists w'. split; [reflexivity|].
    now destruct (wd_get_status w').
Qed.

Lemma not_watchdog_expired_iff (w : option Watchdog) :
  ~ watchdog_expired w <-> set_and_expired w = false.
Proof.
  rewrite watchdog_expired_iff. destruct (set_and_expired w); intuition congruence.
Qed.

(** ** [stop_scenario] before any run *)

(** C9: on a freshly constructed manager [stop_scenario] produces no
    statistics: [start_system_time] is [None] and [start_game_time] was
    never created, and the first subtraction raises a [TypeError]; the
    durations keep their initial value and nothing is terminated,
    released or analysed. *)
Theorem stop_scenario_fresh_raises_TypeError :
  forall (timeout : float) (debug_mode : bool) (env : stop_env),
    let m := init timeout debug_mode in
    let r := stop_scenario env m in
    start_system_time m = None
    /\ start_game_time m = None
    /\ value r = Raise TypeError_float_minus_None
    /\ isinstance TypeError_float_minus_None "TypeError" = true
    /\ scenario_duration_system (state r) = 0.0%float
    /\ scenario_duration_game (state r) = 0.0%float
    /\ log r = [].
Proof.
  intros timeout debug_mode env. cbv zeta. repeat split.
Qed.

(** ** [signal_handler] *)

(** C8: when the agent watchdog has expired the handler raises the
    RuntimeError that names the agent, whatever the world watchdog says;
    otherwise, when the world watchdog has expired, it raises the one that
    names the simulation; in both cases [_running] is left as it was.
    Only when neither has expired does it set [_running] to [False]. *)
Theorem signal_handler_deadline_before_cancel :
  forall m : ScenarioManager,
    let r := signal_handler m in
    (watchdog_expired (_agent_watchdog m) ->
       value r = Raise (ExcFormat RuntimeError_mro
                          "Agent took longer than {}s to send its command" (_timeout m))
       /\ state r = m)
    /\ (~ watchdog_expired (_agent_watchdog m) -> watchdog_expired (_watchdog m) ->
       value r = Raise (ExcFormat RuntimeError_mro
                          "The simulation took longer than {}s to update" (_timeout m))
       /\ state r = m)
    /\ (~ watchdog_expired (_agent_watchdog m) -> ~ watchdog_expired (_watchdog m) ->
       value r = Ok tt /\ state r = set_running false m /\ _running (state r) = false).
Proof.
  intros m. cbv zeta.
  rewrite !not_watchdog_expired_iff, !watchdog_expired_iff.
  unfold signal_handler, bind, gets, raise, modify; simpl.
  destruct (set_and_expired (_agent_watchdog m)) eqn:Ha; simpl.
  - repeat split; intros; congruence.
  - destruct (set_and_expired (_watchdog m)) eqn:Hw; simpl;
      repeat split; intros; congruence.
Qed.

Lemma signal_handler_witness :
  value (signal_handler agent_stall)
  = Raise (ExcFormat RuntimeError_mro
             "Agent took longer than {}s to send its command" 5%float)
  /\ value (signal_handler after_stall)
  = Raise (ExcFormat RuntimeError_mro
             "The simulation took longer than {}s to update" 5%float)
  /\ _running after_run = false /\ value (signal_handler after_run) = Ok tt.
Proof.
  split; [|split; [|split]].
  - apply (proj1 (signal_handler_deadline_before_cancel agent_stall)).
    eexists. split; [vm_compute; reflexivity | reflexivity].
  - apply (proj1 (proj2 (signal_handler_deadline_before_cancel after_stall))).
    + intros [w [H1 H2]]. vm_compute in H1. injection H1 as <-. discriminate H2.
    + eexists. split; [vm_compute; reflexivity | reflexivity].
  - reflexivity.
  - apply (proj2 (proj2 (signal_handler_deadline_before_cancel after_run)));
      intros [w [H1 H2]]; vm_compute in H1; injection H1 as <-; discriminate H2.
Defined.

(** ** Stepping through a computation *)

Lemma holds_ret {A} (a : A) m Q : Q (Ok a) m [] -> holds (ret a) m Q.
Proof. exact (fun H => H). Qed.

Lemma holds_raise {A} (e : exc) m (Q : outcome A -> _ -> _ -> Prop) :
  Q (Raise e) m [] -> holds (raise e) m Q.
Proof. exact (fun H => H). Qed.

Lemma holds_gets {A} (f : ScenarioManager -> A) m Q :
  Q (Ok (f m)) m [] -> holds (gets f) m Q.
Proof. exact (fun H => H). Qed.

Lemma holds_modify f m Q : Q (Ok tt) (f m) [] -> holds (modify f) m Q.
Proof. exact (fun H => H). Qed.

Lemma holds_emit e m Q : Q (Ok tt) m [(e, m)] -> holds (emit e) m Q.
Proof. exact (fun H => H). Qed.

Lemma holds_bind {A B} (c : M A) (k : A -> M B) m Q :
  holds c m (fun v s l =>
               match v with
               | Ok a => holds (k a) s (fun v' s' l' => Q v' s' (l ++ l'))
               | Raise e => Q (Raise e) s l
               end) ->
  holds (bind c k) m Q.
Proof.
  unfold holds, bind. destruct (value (c m)); exact (fun H => H).
Qed.

Lemma holds_try_except {A} (c : M A) (h : exc -> M A) m Q :
  holds c m (fun v s l =>
               match v with
               | Ok a => Q (Ok a) s l
               | Raise e => holds (h e) s (fun v' s' l' => Q v' s' (l ++ l'))
               end) ->
  holds (try_except c h) m Q.
Proof.
  unfold holds, try_except. destruct (value (c m)) eqn:E; [|exact (fun H => H)].
  rewrite E. exact (fun H => H).
Qed.

(** Reduction of attribute reads and writes on an explicit record. *)
Ltac attrs :=
  cbv beta iota delta
      [scenario scenario_tree scenario_class ego_vehicles other_actors
       repetition_number _debug_mode _agent _running _timestamp_last_run
       _timeout scenario_duration_system scenario_duration_game
       start_system_time start_game_time end_system_time end_game_time
       _spectator _watchdog _agent_watchdog
       set_running set_timestamp_last_run set_agent set_spectator
       set_watchdog set_agent_watchdog set_start_system_time
       set_start_game_time set_end_system_time set_end_game_time
       set_scenario_duration_system set_scenario_duration_game
       bind_scenario reset_parameters
       watchdog_attr set_watchdog_attr get_running_status set_and_expired
       is_set wd_get_status wd_expired wd_apply wd_stop wd_start wd_pause
       wd_resume wd_update wd_interval wd_running wd_paused Watchdog_new
       te_world te_agent te_tree_status te_ego_location
       time_time GameTime_get_time scenario_state];
  cbn [negb andb orb app Status_eqb].

(** One step of a computation whose attributes are an explicit record;
    a test on something unknown splits the goal. *)
Ltac step :=
  lazymatch goal with
  | |- holds (bind _ _) _ _ => apply holds_bind
  | |- holds (try_except _ _) _ _ => apply holds_try_except
  | |- holds (ret _) _ _ => apply holds_ret
  | |- holds (raise _) _ _ => apply holds_raise
  | |- holds (gets _) _ _ => apply holds_gets
  | |- holds (modify _) _ _ => apply holds_modify
  | |- holds (emit _) _ _ => apply holds_emit
  | |- holds (when _ _) _ _ => unfold when at 1
  | |- holds (wd_call _ _) _ _ => unfold wd_call at 1
  | |- holds (subscript0 _) _ _ => unfold subscript0 at 1
  | |- holds (agent_call _) _ _ => unfold agent_call at 1
  | |- holds (agent_except _) _ _ => unfold agent_except at 1
  | |- holds (tick_body _ _) _ _ => unfold tick_body at 1
  | |- holds (_tick_scenario _ _) _ _ => unfold _tick_scenario at 1
  | |- holds (stop_if_set _) _ _ => unfold stop_if_set at 1
  | |- holds (analyze_scenario _) _ _ => unfold analyze_scenario at 1
  | |- holds (stop_scenario _) _ _ => unfold stop_scenario at 1
  | |- holds (load_scenario _ _ _ _) _ _ => unfold load_scenario at 1
  | |- holds (run_scenario_start _ _) _ _ => unfold run_scenario_start at 1
  | |- holds (signal_handler) _ _ => unfold signal_handler at 1
  | |- holds (if ?a && ?b then _ else _) _ _ =>
      let E := fresh "E" in destruct a eqn:E
  | |- holds (match ?x with _ => _ end) _ _ =>
      let E := fresh "E" in destruct x eqn:E
  end;
  cbv beta iota; attrs.

Ltac steps := repeat step.

(** Restate a goal about [value (c m)], [state (c m)] and [log (c m)]. *)
Ltac to_holds c :=
  match goal with
  | |- context [c ?m] =>
      pattern (value (c m)), (state (c m)), (log (c m));
      match goal with |- ?Q _ _ _ => change (holds c m Q) end
  end.

Ltac explicit_manager m :=
  destruct m as [sc tree cls egos others rep dbg agent running last timeout
                 dsys dgame ssys sgame esys egame spect wd awd].

(** ** [load_scenario] without a controlled actor *)

(** C1, as stated, fails: with an empty list of ego vehicles the call
    raises, but what it raises is not a ConfigurationError. *)
Lemma load_scenario_no_ego_not_ConfigurationError :
  sc_ego_vehicles scenario_without_ego = []
  /\ ~ (exists e,
          value (load_scenario (Some (sample_world None)) scenario_without_ego 4 0
                   (init 5%float false)) = Raise e
          /\ isinstance e "ConfigurationError" = true).
Proof.
  split; [reflexivity|].
  intros [e [H1 H2]]. vm_compute in H1. injection H1 as <-. discriminate H2.
Qed.

(** C1 (amended): with an empty list of ego vehicles [load_scenario]
    raises from the call itself, after the game clock was restarted and
    the scenario bound, and before any sensor is set up: the IndexError of
    [ego_vehicles[0]], or, when the data provider holds no world, the
    AttributeError of [get_world().get_spectator()].  Neither is a
    ConfigurationError. *)
Theorem load_scenario_no_ego_raises_IndexError :
  forall (world : option World) (sc : ScenarioClass) (agent : Agent)
         (rep_number : Z) (m : ScenarioManager),
    sc_ego_vehicles sc = [] ->
    let r := load_scenario world sc agent rep_number m in
    exists e,
      value r = Raise e
      /\ e = match world with
             | Some _ => IndexError_out_of_range
             | None => AttributeError_None "get_spectator"
             end
      /\ isinstance e "ConfigurationError" = false
      /\ isinstance e (if is_set world then "IndexError" else "AttributeError") = true
      /\ events (log r) = [EvGameTimeRestart]
      /\ ego_vehicles (state r) = Some []
      /\ scenario_class (state r) = Some sc.
Proof.
  intros world [inner egos others] agent rep_number m Hego. cbv zeta.
  simpl in Hego. subst egos.
  destruct m; destruct world as [w|]; eexists; repeat split; reflexivity.
Qed.

Lemma load_scenario_no_ego_witness :
  exists e,
    value (load_scenario (Some (sample_world None)) scenario_without_ego 4 0
             (init 5%float false)) = Raise e
    /\ isinstance e "IndexError" = true.
Proof.
  destruct (load_scenario_no_ego_raises_IndexError
              (Some (sample_world None)) scenario_without_ego 4 0%Z
              (init 5%float false) eq_refl)
    as [e [Hv [He [_ [Hi _]]]]].
  exists e. split; [exact Hv | exact Hi].
Defined.

(** ** [analyze_scenario] *)

Lemma fold_failure_sticks (cs : list Criterion) :
  fold_left
    (fun global_result criterion =>
       if negb (String.eqb (test_status criterion) "SUCCESS")
       then RED_FAILURE else global_result)
    cs RED_FAILURE = RED_FAILURE.
Proof.
  induction cs as [|c cs IH]; simpl; [reflexivity|].
  destruct (negb _); exact IH.
Qed.

Lemma fold_criteria_spec (cs : list Criterion) :
  fold_left
    (fun global_result criterion =>
       if negb (String.eqb (test_status criterion) "SUCCESS")
       then RED_FAILURE else global_result)
    cs GREEN_SUCCESS
  = if forallb (fun c => String.eqb (test_status c) "SUCCESS") cs
    then GREEN_SUCCESS else RED_FAILURE.
Proof.
  induction cs as [|c cs IH]; simpl; [reflexivity|].
  destruct (String.eqb (test_status c) "SUCCESS"); simpl.
  - exact IH.
  - apply fold_failure_sticks.
Qed.

Lemma all_success_forallb (cs : list Criterion) :
  Forall (fun c => test_status c = "SUCCESS") cs
  <-> forallb (fun c => String.eqb (test_status c) "SUCCESS") cs = true.
Proof.
  rewrite forallb_forall, Forall_forall.
  split; intros H c Hc; apply String.eqb_eq; auto.
Qed.

Lemma some_not_success_forallb (cs : list Criterion) :
  Exists (fun c => test_status c <> "SUCCESS") cs
  <-> forallb (fun c => String.eqb (test_status c) "SUCCESS") cs = false.
Proof.
  induction cs as [|c cs IH]; simpl.
  - split; [intros H; inversion H | discriminate].
  - rewrite Exists_cons, andb_false_iff, IH, <- String.eqb_neq. reflexivity.
Qed.

(** C6: [analyze_scenario] hands exactly one verdict to the reporter and
    changes no attribute.  The verdict is FAILURE when some criterion has a
    test status other than "SUCCESS" or the timeout node has its flag set,
    and SUCCESS when all criteria are "SUCCESS" and the flag is not set.
    The status of the behaviour tree is not read: the verdict is the same
    for every state of the manager, whatever the run loop left there. *)
Theorem analyze_scenario_verdict :
  forall (st : ScenarioState) (m : ScenarioManager),
    is_set (scenario m) = true ->
    let r := analyze_scenario st m in
    value r = Ok tt
    /\ state r = m
    /\ exists verdict,
         log r = [(EvReport verdict, m)]
         /\ (Exists (fun c => test_status c <> "SUCCESS") (get_criteria st)
             \/ timeout_node_timeout st = true
             -> verdict = RED_FAILURE)
         /\ (Forall (fun c => test_status c = "SUCCESS") (get_criteria st)
             /\ timeout_node_timeout st = false
             -> verdict = GREEN_SUCCESS)
         /\ GREEN_SUCCESS <> RED_FAILURE.
Proof.
  intros st m Hsc. cbv zeta.
  unfold analyze_scenario, bind, gets, emit, raise.
  destruct (scenario m) as [sc|]; [|discriminate Hsc]. simpl.
  repeat split. exists (global_result_of st).
  unfold global_result_of. rewrite fold_criteria_spec.
  split; [reflexivity|]. split; [|split].
  - intros [H|H].
    + apply some_not_success_forallb in H. rewrite H.
      now destruct (timeout_node_timeout st).
    + now rewrite H.
  - intros [H1 H2]. apply all_success_forallb in H1. now rewrite H1, H2.
  - discriminate.
Qed.

Lemma analyze_scenario_witness :
  events (log (analyze_scenario all_passed after_run)) = [EvReport GREEN_SUCCESS].
Proof.
  destruct (analyze_scenario_verdict all_passed after_run eq_refl)
    as [_ [_ [verdict [Hlog [_ [Hs _]]]]]].
  unfold events. rewrite Hlog. simpl. f_equal. f_equal. apply Hs.
  split; [|reflexivity].
  repeat constructor.
Defined.

(** ** Exceptions of the agent call *)

(** C4, as stated, fails: an exception of the agent call that does not
    derive from [Exception], such as the SystemExit of [sys.exit()], is
    not the "no sensor data" condition and still leaves the tick as it
    is, not as an AgentError. *)
Lemma agent_SystemExit_not_AgentError :
  let env := sample_env (Some (sample_timestamp 1 0.5%float)) (Raise SystemExit_0) RUNNING in
  let m := state (run_scenario_start 100%float 0%float loaded) in
  let r := _tick_scenario env (sample_timestamp 1 0.5%float) m in
  In EvAgentCall (events (log r))
  /\ isinstance SystemExit_0 "SensorReceivedNoData" = false
  /\ ~ (exists e', value r = Raise e' /\ isinstance e' "AgentError" = true).
Proof.
  cbv zeta. split; [|split].
  - vm_compute. tauto.
  - reflexivity.
  - intros [e' [H1 H2]]. vm_compute in H1. injection H1 as <-. discriminate H2.
Qed.

(** C4 (amended): when the agent call of a tick raises [e], the tick
    raises [RuntimeError(e)], which is no AgentError, if [e] is an
    instance of SensorReceivedNoData; otherwise it raises [AgentError(e)]
    if [e] is an instance of [Exception]; an exception outside
    [Exception] leaves the tick unchanged. *)
Theorem agent_exception_reraised :
  forall (env : tick_env) (timestamp : Timestamp) (m : ScenarioManager) (e : exc),
    te_agent env = Raise e ->
    In EvAgentCall (events (log (_tick_scenario env timestamp m))) ->
    let r := _tick_scenario env timestamp m in
    (isinstance e "SensorReceivedNoData" = true ->
       value r = Raise (ExcWrap RuntimeError_mro e)
       /\ isinstance (ExcWrap RuntimeError_mro e) "RuntimeError" = true
       /\ isinstance (ExcWrap RuntimeError_mro e) "AgentError" = false)
    /\ (isinstance e "SensorReceivedNoData" = false ->
        isinstance e "Exception" = true ->
        value r = Raise (ExcWrap AgentError_mro e)
        /\ isinstance (ExcWrap AgentError_mro e) "AgentError" = true)
    /\ (isinstance e "SensorReceivedNoData" = false ->
        isinstance e "Exception" = false ->
        value r = Raise e).
Proof.
  intros env timestamp m e Hagent. cbv zeta.
  destruct m as [sc tree cls egos others rep dbg agent running last timeout
                 dsys dgame ssys sgame esys egame spect wd awd].
  destruct env as [world agent_result status location].
  simpl in Hagent. subst agent_result.
  change (holds (_tick_scenario
                   {| te_world := world; te_agent := Raise e;
                      te_tree_status := status; te_ego_location := location |}
                   timestamp)
            (Build_ScenarioManager sc tree cls egos others rep dbg agent running last timeout
                 dsys dgame ssys sgame esys egame spect wd awd)
            (fun v s l =>
               In EvAgentCall (events l) ->
               (isinstance e "SensorReceivedNoData" = true ->
                v = Raise (ExcWrap RuntimeError_mro e)
                /\ isinstance (ExcWrap RuntimeError_mro e) "RuntimeError" = true
                /\ isinstance (ExcWrap RuntimeError_mro e) "AgentError" = false)
               /\ (isinstance e "SensorReceivedNoData" = false ->
                   isinstance e "Exception" = true ->
                   v = Raise (ExcWrap AgentError_mro e)
                   /\ isinstance (ExcWrap AgentError_mro e) "AgentError" = true)
               /\ (isinstance e "SensorReceivedNoData" = false ->
                   isinstance e "Exception" = false ->
                   v = Raise e))).
  steps.
  all: cbn [events map fst In]; intros Hin; try (exfalso; intuition discriminate).
  all: repeat split; intros; try discriminate; try reflexivity.
Qed.

Lemma agent_exception_witness :
  let m := state (run_scenario_start 100%float 0%float loaded) in
  value (_tick_scenario
           (sample_env (Some (sample_timestamp 1 0.5%float))
              (Raise SensorReceivedNoData_front) RUNNING)
           (sample_timestamp 1 0.5%float) m)
  = Raise (ExcWrap RuntimeError_mro SensorReceivedNoData_front)
  /\ value (_tick_scenario
           (sample_env (Some (sample_timestamp 1 0.5%float))
              (Raise ValueError_bad_steer) RUNNING)
           (sample_timestamp 1 0.5%float) m)
  = Raise (ExcWrap AgentError_mro ValueError_bad_steer).
Proof.
  cbv zeta. split.
  - assert (Hcall : In EvAgentCall
                      (events (log (_tick_scenario
                                      (sample_env (Some (sample_timestamp 1 0.5%float))
                                         (Raise SensorReceivedNoData_front) RUNNING)
                                      (sample_timestamp 1 0.5%float)
                                      (state (run_scenario_start 100%float 0%float loaded))))))
      by (vm_compute; tauto).
    exact (proj1 (proj1 (agent_exception_reraised
                           (sample_env (Some (sample_timestamp 1 0.5%float))
                              (Raise SensorReceivedNoData_front) RUNNING)
                           (sample_timestamp 1 0.5%float)
                           (state (run_scenario_start 100%float 0%float loaded))
                           SensorReceivedNoData_front eq_refl Hcall)
                   eq_refl)).
  - assert (Hcall : In EvAgentCall
                      (events (log (_tick_scenario
                                      (sample_env (Some (sample_timestamp 1 0.5%float))
                                         (Raise ValueError_bad_steer) RUNNING)
                                      (sample_timestamp 1 0.5%float)
                                      (state (run_scenario_start 100%float 0%float loaded))))))
      by (vm_compute; tauto).
    exact (proj1 (proj1 (proj2 (agent_exception_reraised
                                  (sample_env (Some (sample_timestamp 1 0.5%float))
                                     (Raise ValueError_bad_steer) RUNNING)
                                  (sample_timestamp 1 0.5%float)
                                  (state (run_scenario_start 100%float 0%float loaded))
                                  ValueError_bad_steer eq_refl Hcall))
                   eq_refl eq_refl)).
Defined.

(** ** A call of [_tick_scenario] *)

(** What a call of [_tick_scenario] does to [_timestamp_last_run] and for
    which timestamps it advances the game clock. *)
Lemma tick_timestamps (env : tick_env) (timestamp : Timestamp) (m : ScenarioManager) :
  holds (_tick_scenario env timestamp) m
    (fun _ s l =>
       let t := elapsed_seconds timestamp in
       let entered := PrimFloat.ltb (_timestamp_last_run m) t && _running m in
       _timestamp_last_run s = (if entered then t else _timestamp_last_run m)
       /\ (entered = false ->
           s = m
           /\ forallb (fun e => negb (tick_body_event e)) (events l) = true
           /\ (l = [] \/ l = [(EvWorldTick (_timeout m), m)]))
       /\ (ticked (events l) = [] \/ (entered = true /\ ticked (events l) = [t]))
       /\ (ticked (events l) = [] -> existsb tick_body_event (events l) = false)).
Proof.
  destruct m as [sc tree cls egos others rep dbg agent running last timeout
                 dsys dgame ssys sgame esys egame spect wd awd].
  destruct env as [world agent_result status location].
  cbv zeta. attrs. steps.
  all: cbn [events map fst ticked app forallb existsb tick_body_event negb andb orb];
    repeat split; intros; try discriminate; auto.
Qed.

(** The watchdogs during a call of [_tick_scenario]. *)
Lemma tick_exclusive (env : tick_env) (timestamp : Timestamp) (m : ScenarioManager) :
  holds (_tick_scenario env timestamp) m
    (fun _ s l =>
       exclusive_from_pause l = true
       /\ (both_active m = false -> all_exclusive l = true /\ both_active s = false)
       /\ (has_world_pause l = true -> both_active s = false)
       /\ (has_world_pause l = false -> both_active s = both_active m)).
Proof.
  destruct m as [sc tree cls egos others rep dbg agent running last timeout
                 dsys dgame ssys sgame esys egame spect wd awd].
  destruct env as [world agent_result status location].
  destruct wd as [[wi wr wp we]|], awd as [[ai ar ap ae]|].
  all: steps.
  all: cbn [exclusive_from_pause all_exclusive has_world_pause existsb forallb
            is_world_pause fst snd app negb andb orb];
    unfold both_active, wd_active; attrs;
    rewrite ?andb_false_r, ?andb_true_r; cbn [negb andb];
    repeat split; intros; try discriminate; auto.
  all: destruct wr, wp, ar, ap; cbn [negb andb] in *; congruence.
Qed.

(** ** [stop_scenario] *)

(** [stop_scenario] is its two parts, one after the other. *)
Lemma stop_scenario_parts (env : stop_env) (m : ScenarioManager) :
  stop_scenario env m = (before_status_check env ;; from_status_check env) m.
Proof.
  explicit_manager m. destruct env as [now game_now st].
  destruct wd as [[wi wr wp [|]]|], awd as [[ai ar ap ae]|], ssys, sgame, sc, agent.
  all: vm_compute; reflexivity.
Qed.

(** What the running-status check of [stop_scenario] reads: the world
    watchdog as [stop()] left it. *)
Lemma before_status_check_status (env : stop_env) (m : ScenarioManager) :
  _watchdog (state (before_status_check env m)) = option_map wd_stop (_watchdog m)
  /\ get_running_status (state (before_status_check env m))
     = match _watchdog m with
       | Some w => wd_get_status (wd_stop w)
       | None => false
       end.
Proof.
  explicit_manager m. destruct env as [now game_now st].
  to_holds (before_status_check {| time_time := now; GameTime_get_time := game_now;
                                   scenario_state := st |}).
  unfold before_status_check.
  destruct wd as [[wi wr wp we]|], awd as [[ai ar ap ae]|].
  all: steps.
  all: cbn [option_map]; attrs; split; reflexivity.
Qed.



(** C2, as stated, fails: after a run that ended normally, a second
    [stop_scenario] overwrites the end time and the duration with the
    clock readings of the second call, and terminates and analyses the
    scenario once more. *)
Lemma second_stop_scenario_repeats :
  let r1 := stop_scenario (stop_at 110%float 0.5%float) after_run in
  let r2 := stop_scenario (stop_at 120%float 0.5%float) (state r1) in
  value r1 = Ok tt
  /\ value r2 = Ok tt
  /\ end_system_time (state r1) = Some 110%float
  /\ end_system_time (state r2) = Some 120%float
  /\ scenario_duration_system (state r1) = 10%float
  /\ scenario_duration_system (state r2) = 20%float
  /\ events (log r2) = [EvWatchdog WorldWatchdog OpStop; EvWatchdog AgentWatchdog OpStop;
                        EvTerminate; EvReport GREEN_SUCCESS]
  /\ ~ (end_system_time (state r2) = end_system_time (state r1)
        /\ scenario_duration_system (state r2) = scenario_duration_system (state r1)
        /\ existsb closing_event (events (log r2)) = false).
Proof.
  cbv zeta. repeat split; try (vm_compute; reflexivity).
  intros [H _]. vm_compute in H. discriminate H.
Qed.

(** C2 (amended): after a [stop_scenario] that returned, a second one
    returns too and releases no agent, but it computes the statistics
    again: the end times are the clock readings of the second call and the
    durations are measured from the unchanged start times to them.  The
    running-status check of the second call, made on the state [tested2]
    that its first part leaves, finds what the check of the first call
    found on [tested1]; when it passes, the scenario is terminated and the
    verdict reported again; when it fails, none of the three closing calls
    is made. *)
Theorem second_stop_scenario :
  forall (env1 env2 : stop_env) (m : ScenarioManager),
    let r1 := stop_scenario env1 m in
    let r2 := stop_scenario env2 (state r1) in
    let tested1 := state (before_status_check env1 m) in
    let tested2 := state (before_status_check env2 (state r1)) in
    value r1 = Ok tt ->
    value r2 = Ok tt
    /\ end_system_time (state r2) = Some (time_time env2)
    /\ end_game_time (state r2) = Some (GameTime_get_time env2)
    /\ (exists start, start_system_time m = Some start
         /\ scenario_duration_system (state r2) = (time_time env2 - start)%float)
    /\ (exists start, start_game_time m = Some start
         /\ scenario_duration_game (state r2) = (GameTime_get_time env2 - start)%float)
    /\ ~ In EvAgentCleanup (events (log r2))
    /\ (get_running_status m = true ->
        In EvTerminate (events (log r2))
        /\ In (EvReport (global_result_of (scenario_state env2))) (events (log r2)))
    /\ r2 = (before_status_check env2 ;; from_status_check env2) (state r1)
    /\ get_running_status tested2 = get_running_status tested1
    /\ (get_running_status tested2 = true ->
        In EvTerminate (events (log r2))
        /\ In (EvReport (global_result_of (scenario_state env2))) (events (log r2)))
    /\ (get_running_status tested2 = false ->
        existsb closing_event (events (log r2)) = false).
Proof.
  intros env1 env2 m. cbv zeta.
  rewrite (proj2 (before_status_check_status env2 (state (stop_scenario env1 m)))).
  rewrite (proj2 (before_status_check_status env1 m)).
  explicit_manager m.
  destruct env1 as [now1 game_now1 st1], env2 as [now2 game_now2 st2].
  set (e1 := {| time_time := now1; GameTime_get_time := game_now1; scenario_state := st1 |}).
  set (e2 := {| time_time := now2; GameTime_get_time := game_now2; scenario_state := st2 |}).
  match goal with |- context [stop_scenario e1 ?m] => set (m1 := m) end.
  cut (holds (stop_scenario e1) m1
         (fun v1 s1 _ =>
            holds (stop_scenario e2) s1
              (fun v2 s2 l2 =>
                 v1 = Ok tt ->
                 v2 = Ok tt
                 /\ end_system_time s2 = Some (time_time e2)
                 /\ end_game_time s2 = Some (GameTime_get_time e2)
                 /\ (exists start, start_system_time m1 = Some start
                      /\ scenario_duration_system s2 = (time_time e2 - start)%float)
                 /\ (exists start, start_game_time m1 = Some start
                      /\ scenario_duration_game s2 = (GameTime_get_time e2 - start)%float)
                 /\ ~ In EvAgentCleanup (events l2)
                 /\ (get_running_status m1 = true ->
                     In EvTerminate (events l2)
                     /\ In (EvReport (global_result_of (scenario_state e2))) (events l2))
                 /\ (match _watchdog s1 with
                     | Some w => wd_get_status (wd_stop w)
                     | None => false
                     end
                     = match _watchdog m1 with
                       | Some w => wd_get_status (wd_stop w)
                       | None => false
                       end)
                 /\ (match _watchdog s1 with
                     | Some w => wd_get_status (wd_stop w)
                     | None => false
                     end = true ->
                     In EvTerminate (events l2)
                     /\ In (EvReport (global_result_of (scenario_state e2))) (events l2))
                 /\ (match _watchdog s1 with
                     | Some w => wd_get_status (wd_stop w)
                     | None => false
                     end = false ->
                     existsb closing_event (events l2) = false)))).
  { unfold holds. intros H Hok. specialize (H Hok).
    destruct H as (A1 & A2 & A3 & A4 & A5 & A6 & A7 & A8 & A9 & A10).
    repeat (split; [assumption|]).
    split; [apply stop_scenario_parts|].
    repeat (split; [assumption|]). assumption. }
  subst e1 e2 m1.
  destruct wd as [[wi wr wp [|]]|], awd as [[ai ar ap ae]|].
  all: steps.
  all: cbn [events map fst existsb closing_event orb In];
    attrs; intros Hok; try discriminate Hok;
    repeat split; intros; try discriminate; eauto;
    try (intros Hin; cbn [In] in Hin; intuition discriminate); try tauto.
Qed.

Lemma second_stop_scenario_witness :
  let r1 := stop_scenario (stop_at 110%float 0.5%float) after_run in
  let r2 := stop_scenario (stop_at 120%float 0.5%float) (state r1) in
  value r2 = Ok tt /\ end_system_time (state r2) = Some 120%float
  /\ ~ In EvAgentCleanup (events (log r2)).
Proof.
  cbv zeta.
  pose proof (second_stop_scenario (stop_at 110%float 0.5%float)
                (stop_at 120%float 0.5%float) after_run) as H.
  cbv zeta in H. specialize (H eq_refl).
  destruct H as [Hv [He [_ [_ [_ [Hc _]]]]]].
  repeat split; assumption.
Defined.

(** ** Traces *)

Lemma events_app (l1 l2 : trace) : events (l1 ++ l2) = events l1 ++ events l2.
Proof. apply map_app. Qed.

Lemma ticked_app (l1 l2 : list event) : ticked (l1 ++ l2) = ticked l1 ++ ticked l2.
Proof.
  induction l1 as [|e l1 IH]; simpl; [reflexivity|].
  destruct e; simpl; rewrite ?IH; reflexivity.
Qed.

Lemma all_exclusive_app (l1 l2 : trace) :
  all_exclusive (l1 ++ l2) = all_exclusive l1 && all_exclusive l2.
Proof. apply forallb_app. Qed.

Lemma has_world_pause_app (l1 l2 : trace) :
  has_world_pause (l1 ++ l2) = has_world_pause l1 || has_world_pause l2.
Proof. apply existsb_app. Qed.

Lemma has_world_pause_events (tr : trace) :
  has_world_pause tr = existsb is_world_pause (events tr).
Proof.
  induction tr as [|p tr IH]; simpl; [reflexivity|]. now rewrite <- IH.
Qed.

Lemma exclusive_from_pause_app (l1 l2 : trace) :
  exclusive_from_pause (l1 ++ l2)
  = if has_world_pause l1
    then exclusive_from_pause l1 && all_exclusive l2
    else exclusive_from_pause l2.
Proof.
  induction l1 as [|p l1 IH]; simpl; [reflexivity|].
  destruct (is_world_pause (fst p)); simpl.
  - rewrite all_exclusive_app. now rewrite andb_assoc.
  - exact IH.
Qed.

Lemma all_exclusive_Forall (tr : trace) :
  all_exclusive tr = true ->
  Forall (fun s => both_active s = false) (snapshots tr).
Proof.
  unfold all_exclusive, snapshots. rewrite forallb_forall, Forall_forall.
  intros H s Hs. apply in_map_iff in Hs. destruct Hs as [p [<- Hp]].
  apply H in Hp. now apply negb_true_iff.
Qed.

(** The split form of [exclusive_from_pause]: at whichever pause of the
    world watchdog the trace is cut, the snapshots from there on are
    exclusive. *)
Lemma exclusive_from_pause_split (tr : trace) :
  exclusive_from_pause tr = true ->
  forall pre s post,
    tr = pre ++ (EvWatchdog WorldWatchdog OpPause, s) :: post ->
    Forall (fun s' => both_active s' = false) (s :: snapshots post).
Proof.
  intros H pre s post ->.
  rewrite exclusive_from_pause_app in H.
  destruct (has_world_pause pre).
  - apply andb_true_iff in H. destruct H as [_ H].
    apply all_exclusive_Forall in H. exact H.
  - simpl in H. apply andb_true_iff in H. destruct H as [H1 H2].
    constructor; [now apply negb_true_iff | now apply all_exclusive_Forall].
Qed.

(** ** Sequences of ticks *)

Lemma tick_calls_exclusive (frames : list (tick_env * Timestamp)) :
  forall m,
    let m' := fst (tick_calls frames m) in
    let tr := snd (tick_calls frames m) in
    exclusive_from_pause tr = true
    /\ (both_active m = false -> all_exclusive tr = true /\ both_active m' = false)
    /\ (has_world_pause tr = true -> both_active m' = false)
    /\ (has_world_pause tr = false -> both_active m' = both_active m).
Proof.
  induction frames as [|[env timestamp] frames IH]; intros m; cbv zeta.
  - simpl. repeat split; auto; discriminate.
  - cbn [tick_calls fst snd].
    pose proof (tick_exclusive env timestamp m) as [E1 [E2 [E3 E4]]].
    specialize (IH (state (_tick_scenario env timestamp m))).
    cbv zeta in IH. destruct IH as [I1 [I2 [I3 I4]]].
    rewrite exclusive_from_pause_app, all_exclusive_app, has_world_pause_app.
    destruct (has_world_pause (log (_tick_scenario env timestamp m))) eqn:Hp.
    + specialize (E3 eq_refl). destruct (I2 E3) as [I2a I2b]. cbn [orb].
      split; [|split; [|split]].
      * now rewrite E1, I2a.
      * intros Hm. destruct (E2 Hm) as [-> _]. now rewrite I2a.
      * intros _. exact I2b.
      * discriminate.
    + specialize (E4 eq_refl). cbn [orb].
      split; [|split; [|split]].
      * exact I1.
      * intros Hm. destruct (E2 Hm) as [-> Hs]. destruct (I2 Hs) as [-> Hf].
        split; [reflexivity | exact Hf].
      * exact I3.
      * intros Hq. rewrite (I4 Hq). exact E4.
Qed.

Lemma float_le_lt_trans (a b c : float) :
  a = b \/ PrimFloat.ltb a b = true ->
  PrimFloat.ltb b c = true -> PrimFloat.ltb a c = true.
Proof. intros [->|H] Hbc; [exact Hbc | exact (float_ltb_trans _ _ _ H Hbc)]. Qed.

Lemma float_le_trans (a b c : float) :
  a = b \/ PrimFloat.ltb a b = true ->
  b = c \/ PrimFloat.ltb b c = true ->
  a = c \/ PrimFloat.ltb a c = true.
Proof.
  intros Hab [->|Hbc]; [exact Hab|].
  right. exact (float_le_lt_trans _ _ _ Hab Hbc).
Qed.

(** The timestamps ticked by a sequence of calls are strictly increasing,
    all later than the last run before the calls and none later than the
    last run after them. *)
Lemma tick_calls_timestamps (frames : list (tick_env * Timestamp)) :
  forall m,
    let m' := fst (tick_calls frames m) in
    let l := ticked (events (snd (tick_calls frames m))) in
    StronglySorted (fun a b => PrimFloat.ltb a b = true) l
    /\ Forall (fun t => PrimFloat.ltb (_timestamp_last_run m) t = true) l
    /\ (_timestamp_last_run m = _timestamp_last_run m'
        \/ PrimFloat.ltb (_timestamp_last_run m) (_timestamp_last_run m') = true)
    /\ Forall (fun t => t = _timestamp_last_run m'
                        \/ PrimFloat.ltb t (_timestamp_last_run m') = true) l.
Proof.
  induction frames as [|[env timestamp] frames IH]; intros m; cbv zeta.
  - simpl. repeat split; auto; constructor.
  - cbn [tick_calls fst snd].
    pose proof (tick_timestamps env timestamp m) as [T1 [_ [T3 _]]]. cbv zeta in T1, T3.
    specialize (IH (state (_tick_scenario env timestamp m))).
    cbv zeta in IH. destruct IH as [I1 [I2 [I3 I4]]].
    rewrite events_app, ticked_app.
    set (r := _tick_scenario env timestamp m) in *.
    set (rest := tick_calls frames (state r)) in *.
    assert (Hstep : _timestamp_last_run m = _timestamp_last_run (state r)
                    \/ PrimFloat.ltb (_timestamp_last_run m)
                         (_timestamp_last_run (state r)) = true).
    { rewrite T1.
      destruct (PrimFloat.ltb (_timestamp_last_run m) (elapsed_seconds timestamp)) eqn:Hlt;
        destruct (_running m); simpl; auto. }
    assert (Hlater : Forall (fun t => PrimFloat.ltb (_timestamp_last_run m) t = true)
                       (ticked (events (snd rest)))).
    { eapply Forall_impl; [|exact I2]. intros t Ht.
      exact (float_le_lt_trans _ _ _ Hstep Ht). }
    destruct T3 as [T3|[Hentered T3]]; rewrite T3; simpl.
    + repeat split; auto. exact (float_le_trans _ _ _ Hstep I3).
    + rewrite Hentered in T1. apply andb_true_iff in Hentered.
      destruct Hentered as [Hlt _]. rewrite T1 in *.
      repeat split.
      * constructor; assumption.
      * constructor; assumption.
      * exact (float_le_trans _ _ _ Hstep I3).
      * constructor; assumption.
Qed.

Lemma StronglySorted_lt_NoDup (l : list float) :
  StronglySorted (fun a b => PrimFloat.ltb a b = true) l -> NoDup l.
Proof.
  induction 1 as [|a l Hs IH Hall]; constructor; [|exact IH].
  intros Hin. rewrite Forall_forall in Hall. specialize (Hall a Hin).
  rewrite float_ltb_irrefl in Hall. discriminate.
Qed.

(** ** The run loop *)

(** The loop is a sequence of calls of [_tick_scenario]. *)
Lemma run_loop_tick_calls (polls : list tick_env) :
  forall m,
    holds (run_loop polls) m
      (fun _ s l => exists frames,
           s = fst (tick_calls frames m) /\ l = snd (tick_calls frames m)).
Proof.
  induction polls as [|env polls IH]; intros m.
  - exists []. split; reflexivity.
  - cbn [run_loop]. apply holds_bind, holds_gets. cbv beta iota.
    destruct (_running m).
    2:{ apply holds_ret. exists []. split; reflexivity. }
    apply holds_bind.
    destruct (current_timestamp env) as [timestamp|].
    + unfold holds at 1.
      destruct (value (_tick_scenario env timestamp m)) eqn:Hv.
      * destruct (IH (state (_tick_scenario env timestamp m))) as [frames [Hs Hl]].
        exists ((env, timestamp) :: frames).
        cbn [tick_calls fst snd app]. rewrite <- Hs, <- Hl. split; reflexivity.
      * exists [(env, timestamp)].
        cbn [tick_calls fst snd app]. rewrite app_nil_r. split; reflexivity.
    + apply holds_ret. cbv beta iota. cbn [app]. exact (IH m).
Qed.

Lemma run_scenario_start_spec (now game_now : float) (m : ScenarioManager) :
  holds (run_scenario_start now game_now) m
    (fun v s l =>
       v = Ok tt
       /\ events l = [EvWatchdog WorldWatchdog OpStart; EvWatchdog AgentWatchdog OpStart]
       /\ both_active s = true
       /\ _running s = true
       /\ _timestamp_last_run s = _timestamp_last_run m
       /\ start_system_time s = Some now
       /\ start_game_time s = Some game_now).
Proof.
  explicit_manager m. steps. repeat split.
Qed.

Lemma run_scenario_split (now game_now : float) (polls : list tick_env)
    (m : ScenarioManager) :
  let r0 := run_scenario_start now game_now m in
  let r := run_scenario now game_now polls m in
  value r = value (run_loop polls (state r0))
  /\ state r = state (run_loop polls (state r0))
  /\ log r = log r0 ++ log (run_loop polls (state r0)).
Proof.
  cbv zeta. unfold run_scenario. unfold bind at 1 2 3. cbv zeta.
  destruct (run_scenario_start_spec now game_now m) as [-> _].
  repeat split.
Qed.

Lemma run_scenario_timestamps (now game_now : float) (polls : list tick_env)
    (m : ScenarioManager) :
  let r := run_scenario now game_now polls m in
  let l := ticked (events (log r)) in
  StronglySorted (fun a b => PrimFloat.ltb a b = true) l
  /\ Forall (fun t => PrimFloat.ltb (_timestamp_last_run m) t = true) l
  /\ Forall (fun t => t = _timestamp_last_run (state r)
                      \/ PrimFloat.ltb t (_timestamp_last_run (state r)) = true) l.
Proof.
  cbv zeta.
  destruct (run_scenario_split now game_now polls m) as [_ [Hs Hl]].
  cbv zeta in Hs, Hl. rewrite Hs, Hl. clear Hs Hl.
  destruct (run_scenario_start_spec now game_now m) as [_ [He [_ [_ [Hlast _]]]]].
  set (m0 := state (run_scenario_start now game_now m)) in *.
  destruct (run_loop_tick_calls polls m0) as [frames [Hs Hl]].
  rewrite events_app, ticked_app, He, Hs, Hl. cbn [ticked app].
  destruct (tick_calls_timestamps frames m0) as [T1 [T2 [_ T4]]].
  rewrite Hlast in T2. repeat split; assumption.
Qed.

(** ** Mutual exclusion of the watchdogs *)

(** C3, as stated, fails: [run_scenario] starts both watchdogs before the
    loop, and both stay running and unpaused until the first tick body
    pauses the world watchdog. *)
Lemma both_watchdogs_active_before_first_pause :
  let r := run_scenario 100%float 0%float
             [sample_env (Some (sample_timestamp 1 0.5%float)) (Ok sample_control) RUNNING]
             loaded in
  exists s, In s (snapshots (log r)) /\ both_active s = true.
Proof.
  cbv zeta.
  exists (nth 1 (snapshots
                   (log (run_scenario 100%float 0%float
                           [sample_env (Some (sample_timestamp 1 0.5%float))
                              (Ok sample_control) RUNNING]
                           loaded)))
            loaded).
  split; vm_compute.
  - right. left. reflexivity.
  - reflexivity.
Qed.

(** C3 (amended): [run_scenario] starts both watchdogs, so that before
    the loop both are running and unpaused.  From the first pause of the
    world watchdog on, which is in the first tick body, the two are never
    both active: at whichever such pause the trace of the run is cut, no
    snapshot from there on has both active, whether the run returns, is
    still polling or left through an exception, and neither has the state
    the run ends in.  A run in which no tick body got that far ends with
    both active. *)
Theorem watchdogs_exclusive_after_first_pause :
  forall (now game_now : float) (polls : list tick_env) (m : ScenarioManager),
    let r := run_scenario now game_now polls m in
    both_active (state (run_scenario_start now game_now m)) = true
    /\ (forall pre s post,
          log r = pre ++ (EvWatchdog WorldWatchdog OpPause, s) :: post ->
          Forall (fun s' => both_active s' = false) (s :: snapshots post))
    /\ (has_world_pause (log r) = true -> both_active (state r) = false)
    /\ (has_world_pause (log r) = false -> both_active (state r) = true).
Proof.
  intros now game_now polls m. cbv zeta.
  destruct (run_scenario_split now game_now polls m) as [_ [Hs Hl]].
  cbv zeta in Hs, Hl.
  destruct (run_scenario_start_spec now game_now m) as [_ [He [Hb _]]].
  set (r0 := run_scenario_start now game_now m) in *.
  destruct (run_loop_tick_calls polls (state r0)) as [frames [Hs' Hl']].
  destruct (tick_calls_exclusive frames (state r0)) as [X1 [_ [X3 X4]]].
  rewrite <- Hs', <- Hl' in *. rewrite <- Hs in *.
  assert (Hp0 : has_world_pause (log r0) = false).
  { rewrite has_world_pause_events, He. reflexivity. }
  split; [exact Hb|]. split; [|split].
  - apply exclusive_from_pause_split.
    rewrite Hl, exclusive_from_pause_app, Hp0. exact X1.
  - rewrite Hl, has_world_pause_app, Hp0. exact X3.
  - rewrite Hl, has_world_pause_app, Hp0. cbn [orb]. intros H.
    rewrite (X4 H). exact Hb.
Qed.

Lemma watchdogs_exclusive_witness :
  let r := run_scenario 100%float 0%float
             [sample_env (Some (sample_timestamp 1 0.5%float))
                (Raise ValueError_bad_steer) RUNNING]
             loaded in
  has_world_pause (log r) = true
  /\ value r = Raise (ExcWrap AgentError_mro ValueError_bad_steer)
  /\ both_active (state r) = false.
Proof.
  cbv zeta.
  assert (Hp : has_world_pause
                 (log (run_scenario 100%float 0%float
                         [sample_env (Some (sample_timestamp 1 0.5%float))
                            (Raise ValueError_bad_steer) RUNNING]
                         loaded)) = true) by (vm_compute; reflexivity).
  split; [exact Hp|]. split; [vm_compute; reflexivity|].
  exact (proj1 (proj2 (proj2 (watchdogs_exclusive_after_first_pause _ _ _ _))) Hp).
Defined.

(** ** One tick body per timestamp *)

(** C5: over any sequence of calls of [_tick_scenario], whatever each call
    returns or raises, the timestamps for which a tick body advanced the
    game clock are strictly increasing, so that none occurs twice; every
    other call of a tick body comes after that advance.  A frame whose
    [elapsed_seconds] is not strictly greater than [_timestamp_last_run]
    leaves the attributes as they are and makes none of the calls of a
    tick body; and so does a second call for the frame of the call
    before. *)
Theorem one_tick_body_per_timestamp :
  (forall (frames : list (tick_env * Timestamp)) (m : ScenarioManager),
     let l := ticked (events (snd (tick_calls frames m))) in
     StronglySorted (fun a b => PrimFloat.ltb a b = true) l /\ NoDup l)
  /\ (forall (env : tick_env) (timestamp : Timestamp) (m : ScenarioManager),
        let r := _tick_scenario env timestamp m in
        (ticked (events (log r)) = [] \/ ticked (events (log r)) = [elapsed_seconds timestamp])
        /\ (ticked (events (log r)) = [] ->
            existsb tick_body_event (events (log r)) = false))
  /\ (forall (env : tick_env) (timestamp : Timestamp) (m : ScenarioManager),
        PrimFloat.ltb (_timestamp_last_run m) (elapsed_seconds timestamp) = false ->
        let r := _tick_scenario env timestamp m in
        state r = m /\ existsb tick_body_event (events (log r)) = false)
  /\ (forall (env env' : tick_env) (timestamp : Timestamp) (m : ScenarioManager),
        let r1 := _tick_scenario env timestamp m in
        let r2 := _tick_scenario env' timestamp (state r1) in
        state r2 = state r1 /\ existsb tick_body_event (events (log r2)) = false).
Proof.
  assert (Hskip : forall env timestamp m,
             PrimFloat.ltb (_timestamp_last_run m) (elapsed_seconds timestamp)
             && _running m = false ->
             let r := _tick_scenario env timestamp m in
             state r = m /\ existsb tick_body_event (events (log r)) = false).
  { intros env timestamp m Hc. cbv zeta.
    destruct (tick_timestamps env timestamp m) as [_ [H _]].
    cbv zeta in H. destruct (H Hc) as [Hs [_ Hl]].
    split; [exact Hs|]. destruct Hl as [->| ->]; reflexivity. }
  split; [|split; [|split]].
  - intros frames m. cbv zeta.
    destruct (tick_calls_timestamps frames m) as [H _].
    split; [exact H | exact (StronglySorted_lt_NoDup _ H)].
  - intros env timestamp m. cbv zeta.
    destruct (tick_timestamps env timestamp m) as [_ [_ [H1 H2]]].
    cbv zeta in H1. split; [|exact H2].
    destruct H1 as [H1|[_ H1]]; auto.
  - intros env timestamp m Hlt. apply Hskip. now rewrite Hlt.
  - intros env env' timestamp m. cbv zeta. apply Hskip.
    destruct (tick_timestamps env timestamp m) as [H1 [H2 _]]. cbv zeta in H1, H2.
    destruct (PrimFloat.ltb (_timestamp_last_run m) (elapsed_seconds timestamp)
              && _running m) eqn:Hc.
    + rewrite H1, float_ltb_irrefl. reflexivity.
    + destruct (H2 eq_refl) as [-> _]. exact Hc.
Qed.

Lemma one_tick_body_witness :
  let m := state (run_scenario_start 100%float 0%float loaded) in
  let env := sample_env (Some (sample_timestamp 1 0.5%float)) (Ok sample_control) RUNNING in
  let r1 := _tick_scenario env (sample_timestamp 1 0.5%float) m in
  let r2 := _tick_scenario env (sample_timestamp 1 0.5%float) (state r1) in
  ticked (events (log r1)) = [0.5%float]
  /\ state r2 = state r1
  /\ existsb tick_body_event (events (log r2)) = false.
Proof.
  cbv zeta. split; [vm_compute; reflexivity|].
  exact (proj2 (proj2 (proj2 one_tick_body_per_timestamp)) _ _ _ _).
Defined.

(** ** The last timestamp across scenarios *)

Lemma load_scenario_last_run (world : option World) (new_scenario : ScenarioClass)
    (new_agent : Agent) (rep_number : Z) (m : ScenarioManager) :
  holds (load_scenario world new_scenario new_agent rep_number) m
    (fun _ s _ => _timestamp_last_run s = _timestamp_last_run m).
Proof.
  explicit_manager m. destruct new_scenario as [inner sc_egos sc_others].
  steps. all: reflexivity.
Qed.

Lemma stop_scenario_last_run (env : stop_env) (m : ScenarioManager) :
  holds (stop_scenario env) m
    (fun _ s _ => _timestamp_last_run s = _timestamp_last_run m).
Proof.
  explicit_manager m. destruct env as [now game_now st].
  destruct wd as [[wi wr wp we]|], awd as [[ai ar ap ae]|].
  all: steps. all: reflexivity.
Qed.

(** C10: [load_scenario] leaves [_timestamp_last_run] as it is, whether it
    returns or raises; [__init__] and [cleanup] set it to 0.0.  So when a
    run is followed by [stop_scenario], the load of another scenario and a
    second run, with no [cleanup] in between, every timestamp ticked in the
    second run is strictly greater than every timestamp ticked in the
    first: a frame that is not strictly greater than the largest of them
    gets no tick body. *)
Theorem load_scenario_keeps_last_timestamp :
  (forall (world : option World) (sc : ScenarioClass) (agent : Agent)
          (rep_number : Z) (m : ScenarioManager),
      _timestamp_last_run (state (load_scenario world sc agent rep_number m))
      = _timestamp_last_run m)
  /\ (forall m : ScenarioManager, _timestamp_last_run (state (cleanup m)) = 0.0%float)
  /\ (forall (timeout : float) (debug_mode : bool),
        _timestamp_last_run (init timeout debug_mode) = 0.0%float)
  /\ (forall (now1 game_now1 : float) (polls1 : list tick_env) (env : stop_env)
             (world : option World) (sc : ScenarioClass) (agent : Agent) (rep_number : Z)
             (now2 game_now2 : float) (polls2 : list tick_env) (m : ScenarioManager),
        let r1 := run_scenario now1 game_now1 polls1 m in
        let stopped := state (stop_scenario env (state r1)) in
        let reloaded := state (load_scenario world sc agent rep_number stopped) in
        let r2 := run_scenario now2 game_now2 polls2 reloaded in
        _timestamp_last_run reloaded = _timestamp_last_run (state r1)
        /\ forall t1 t2 : float,
             In t1 (ticked (events (log r1))) ->
             In t2 (ticked (events (log r2))) ->
             PrimFloat.ltb t1 t2 = true).
Proof.
  split; [|split; [|split]].
  - intros. apply load_scenario_last_run.
  - intros m. reflexivity.
  - reflexivity.
  - intros until m. cbv zeta.
    assert (Hkeep : _timestamp_last_run
                      (state (load_scenario world sc agent rep_number
                                (state (stop_scenario env
                                          (state (run_scenario now1 game_now1 polls1 m))))))
                    = _timestamp_last_run (state (run_scenario now1 game_now1 polls1 m))).
    { pose proof (load_scenario_last_run world sc agent rep_number
                    (state (stop_scenario env
                              (state (run_scenario now1 game_now1 polls1 m))))) as H1.
      pose proof (stop_scenario_last_run env
                    (state (run_scenario now1 game_now1 polls1 m))) as H2.
      unfold holds in H1, H2. now rewrite H1, H2. }
    split; [exact Hkeep|].
    intros t1 t2 Ht1 Ht2.
    destruct (run_scenario_timestamps now1 game_now1 polls1 m) as [_ [_ A]].
    match type of Ht2 with
    | In _ (ticked (events (log (run_scenario _ _ _ ?m2)))) =>
        destruct (run_scenario_timestamps now2 game_now2 polls2 m2) as [_ [B _]]
    end.
    cbv zeta in A, B. rewrite Forall_forall in A, B.
    specialize (A t1 Ht1). specialize (B t2 Ht2).
    rewrite Hkeep in B.
    clear - A B.
    generalize dependent
      (_timestamp_last_run (state (run_scenario now1 game_now1 polls1 m))).
    intros last1 A B. exact (float_le_lt_trans _ _ _ A B).
Qed.

Lemma load_scenario_keeps_last_timestamp_witness :
  let frame1 := sample_env (Some (sample_timestamp 7 3.5%float)) (Ok sample_control) SUCCESS in
  let frame2 := sample_env (Some (sample_timestamp 1 0.5%float)) (Ok sample_control) SUCCESS in
  let r1 := run_scenario 100%float 0%float [frame1] loaded in
  let stopped := state (stop_scenario (stop_at 110%float 0.5%float) (state r1)) in
  let reloaded := state (load_scenario (Some (sample_world None)) sample_scenario 4 1 stopped) in
  let r2 := run_scenario 120%float 0%float [frame2; frame2] reloaded in
  ticked (events (log r1)) = [3.5%float]
  /\ _timestamp_last_run reloaded = _timestamp_last_run (state r1)
  /\ ticked (events (log r2)) = []
  /\ value r2 = Ok Polling.
Proof.
  cbv zeta. split; [vm_compute; reflexivity|]. split.
  - exact (proj1 (proj2 (proj2 (proj2 load_scenario_keeps_last_timestamp))
                   100%float 0%float
                   [sample_env (Some (sample_timestamp 7 3.5%float)) (Ok sample_control) SUCCESS]
                   (stop_at 110%float 0.5%float)
                   (Some (sample_world None)) sample_scenario 4 1%Z
                   120%float 0%float
                   [sample_env (Some (sample_timestamp 1 0.5%float)) (Ok sample_control) SUCCESS;
                    sample_env (Some (sample_timestamp 1 0.5%float)) (Ok sample_control) SUCCESS]
                   loaded)).
  - split; vm_compute; reflexivity.
Defined.

(** * Further properties *)

(** ** What a call of [_tick_scenario] may do *)

Lemma tick_shape (env : tick_env) (timestamp : Timestamp) (m : ScenarioManager) :
  holds (_tick_scenario env timestamp) m
    (fun v s l =>
       (forall t, In (EvWorldTick t) (events l) ->
                  t = _timeout m /\ _running s = true
                  /\ get_running_status s = true /\ is_set (te_world env) = true)
       /\ List.length (filter is_world_tick (events l)) <= 1
       /\ (_running m = false -> v = Ok tt /\ s = m /\ l = [])
       /\ existsb is_start_or_stop (events l) = false
       /\ s = with_tick_attributes s m
       /\ (_running s = true -> _running m = true)
       /\ (_running m = true -> _running s = false ->
           existsb is_tree_tick (events l) = true
           /\ Status_eqb (te_tree_status env) RUNNING = false)
       /\ option_map wd_running (_watchdog s) = option_map wd_running (_watchdog m)
       /\ option_map wd_running (_agent_watchdog s)
          = option_map wd_running (_agent_watchdog m)).
Proof.
  explicit_manager m.
  destruct env as [world agent_result status location].
  destruct wd as [[wi wr wp we]|], awd as [[ai ar ap ae]|].
  all: steps.
  all: unfold with_tick_attributes;
    cbn [events map fst In filter is_world_tick List.length existsb is_start_or_stop
         is_tree_tick orb option_map];
    attrs; repeat split; intros; try discriminate; try lia; auto.
  all: try (exfalso; intuition discriminate).
  all: repeat match goal with
         | H : _ \/ _ |- _ => destruct H as [H|H]; try discriminate H
         | H : False |- _ => destruct H
         | H : EvWorldTick _ = EvWorldTick _ |- _ => injection H as <-
         end; try reflexivity.
  all: now apply negb_true_iff.
Qed.

Lemma tick_agent (env : tick_env) (timestamp : Timestamp) (m : ScenarioManager) :
  holds (_tick_scenario env timestamp) m
    (fun v s l =>
       let entered := PrimFloat.ltb (_timestamp_last_run m) (elapsed_seconds timestamp)
                      && _running m in
       (forall ego c, In (EvApplyControl ego c) (events l) ->
                      te_agent env = Ok c
                      /\ exists rest, ego_vehicles m = Some (ego :: rest))
       /\ match te_agent env with
          | Raise _ =>
              In EvAgentCall (events l) ->
              existsb after_agent_event (events l) = false
              /\ _running s = true
              /\ _timestamp_last_run s = elapsed_seconds timestamp
              /\ option_map wd_paused (_watchdog s) = Some true
              /\ option_map wd_paused (_agent_watchdog s) = Some false
              /\ v <> Ok tt
          | Ok _ => True
          end
       /\ (_agent m = None -> entered = true ->
           is_set (_watchdog m) = true -> is_set (_agent_watchdog m) = true ->
           v = Raise (ExcWrap AgentError_mro TypeError_not_callable)
           /\ ~ In EvAgentCall (events l)
           /\ existsb after_agent_event (events l) = false)
       /\ (v = Ok tt -> entered = true ->
           _running s = Status_eqb (te_tree_status env) RUNNING
           /\ match ego_vehicles m, scenario_tree m, _spectator m, te_agent env with
              | Some (ego :: _), Some tree, Some spectator, Ok control =>
                  events l
                  = tick_sequence timestamp ego control tree (_debug_mode m) spectator
                      (te_ego_location env)
                      (if _running s && get_running_status s
                       then Some (_timeout m) else None)
              | _, _, _, _ => False
              end)).
Proof.
  explicit_manager m.
  destruct env as [world agent_result status location].
  destruct wd as [[wi wr wp we]|], awd as [[ai ar ap ae]|], agent_result as [control|e].
  all: cbv zeta; steps.
  all: unfold tick_sequence;
    cbn [events map fst In existsb after_agent_event orb option_map app];
    attrs; repeat split; intros; try discriminate; auto.
  all: try (exfalso; intuition discriminate).
  all: try (intros Hin; intuition discriminate).
  all: repeat match goal with
         | H : _ \/ _ |- _ => destruct H as [H|H]; try discriminate H
         | H : False |- _ => destruct H
         | H : EvApplyControl _ _ = EvApplyControl _ _ |- _ => injection H as <- <-
         end; try reflexivity; eauto.
  all: match goal with
       | E : negb ?b = _ |- _ = ?b => destruct b; cbn [negb] in E; congruence
       end.
Qed.

(** X1: a call of [_tick_scenario] advances the simulator at most once,
    with the manager's timeout, and only when after the tick body the loop
    is still running and the world watchdog reports healthy. *)
Theorem simulator_advanced_only_when_healthy :
  forall (env : tick_env) (timestamp : Timestamp) (m : ScenarioManager),
    let r := _tick_scenario env timestamp m in
    List.length (filter is_world_tick (events (log r))) <= 1
    /\ forall t, In (EvWorldTick t) (events (log r)) ->
                 t = _timeout m
                 /\ _running (state r) = true
                 /\ get_running_status (state r) = true.
Proof.
  intros env timestamp m. cbv zeta.
  destruct (tick_shape env timestamp m) as [H1 [H2 _]].
  split; [exact H2|].
  intros t Ht. destruct (H1 t Ht) as [A [B [C _]]]. auto.
Qed.

Lemma run_loop_not_running (polls : list tick_env) (m : ScenarioManager) :
  _running m = false ->
  value (run_loop polls m) = Ok Finished
  /\ state (run_loop polls m) = m
  /\ log (run_loop polls m) = [].
Proof.
  intros H.
  destruct polls as [|env polls]; cbn [run_loop];
    unfold bind, gets, ret; cbn [value state log]; rewrite H;
    cbn [value state log app]; repeat split.
Qed.

Lemma signal_handler_returns (m : ScenarioManager) :
  value (signal_handler m) = Ok tt ->
  state (signal_handler m) = set_running false m.
Proof.
  unfold signal_handler, bind, gets, raise, modify; cbn [value state log].
  destruct (set_and_expired (_agent_watchdog m)); cbn [value state log];
    [discriminate|].
  destruct (set_and_expired (_watchdog m)); cbn [value state log];
    [discriminate|reflexivity].
Qed.

(** X2: in the state that [signal_handler] leaves when it returns, that
    is, when the interrupt was taken as a cancellation, a call of
    [_tick_scenario] that begins there returns without a call to any
    collaborator and leaves the attributes as they are, and the loop of
    [run_scenario], testing [_running] there, leaves, whatever frames are
    waiting.  The statement is about calls that begin after the handler
    has returned; it says nothing of a tick that is under way when the
    interrupt arrives. *)
Theorem cancelled_loop_leaves :
  forall (m : ScenarioManager),
    value (signal_handler m) = Ok tt ->
    let m' := state (signal_handler m) in
    (forall (env : tick_env) (timestamp : Timestamp),
        let r := _tick_scenario env timestamp m' in
        value r = Ok tt /\ state r = m' /\ log r = [])
    /\ (forall polls : list tick_env,
          let r := run_loop polls m' in
          value r = Ok Finished /\ state r = m' /\ log r = []).
Proof.
  intros m H. cbv zeta. rewrite (signal_handler_returns m H).
  assert (Hr : _running (set_running false m) = false) by reflexivity.
  split.
  - intros env timestamp.
    destruct (tick_shape env timestamp (set_running false m)) as [_ [_ [H3 _]]].
    exact (H3 Hr).
  - intros polls. exact (run_loop_not_running polls _ Hr).
Qed.

Lemma cancelled_loop_witness :
  let m' := state (signal_handler
                     (state (run_scenario_start 100%float 0%float loaded))) in
  value (run_loop [sample_env (Some (sample_timestamp 1 0.5%float))
                     (Ok sample_control) RUNNING] m') = Ok Finished.
Proof.
  cbv zeta.
  exact (proj1 (proj2 (cancelled_loop_leaves
                         (state (run_scenario_start 100%float 0%float loaded))
                         eq_refl) _)).
Defined.

(** X3: a call of [_tick_scenario] that enters the tick body and returns
    has made exactly the calls of [tick_sequence], in that order: one agent
    call between the pause and the resume of the world watchdog, the
    agent's control applied to the first ego vehicle, one evaluation of
    the tree, and the frame advance last, present only when the tree is
    still RUNNING and the world watchdog healthy.  It leaves [_running]
    true exactly when the tree is RUNNING. *)
Theorem completed_tick_calls :
  forall (env : tick_env) (timestamp : Timestamp) (m : ScenarioManager),
    PrimFloat.ltb (_timestamp_last_run m) (elapsed_seconds timestamp) = true ->
    _running m = true ->
    value (_tick_scenario env timestamp m) = Ok tt ->
    let r := _tick_scenario env timestamp m in
    _running (state r) = Status_eqb (te_tree_status env) RUNNING
    /\ exists ego rest tree spectator control,
         ego_vehicles m = Some (ego :: rest)
         /\ scenario_tree m = Some tree
         /\ _spectator m = Some spectator
         /\ te_agent env = Ok control
         /\ events (log r)
            = tick_sequence timestamp ego control tree (_debug_mode m) spectator
                (te_ego_location env)
                (if _running (state r) && get_running_status (state r)
                 then Some (_timeout m) else None).
Proof.
  intros env timestamp m Hlt Hrun Hv. cbv zeta.
  destruct (tick_agent env timestamp m) as [_ [_ [_ H]]]. cbv zeta in H.
  rewrite Hlt, Hrun in H. destruct (H Hv eq_refl) as [H1 H2]. clear H.
  split; [exact H1|].
  destruct (ego_vehicles m) as [[|ego rest]|]; try contradiction.
  destruct (scenario_tree m) as [tree|]; try contradiction.
  destruct (_spectator m) as [spectator|]; try contradiction.
  destruct (te_agent env) as [control|]; try contradiction.
  exists ego, rest, tree, spectator, control. repeat split. exact H2.
Qed.

Lemma completed_tick_witness :
  let m := state (run_scenario_start 100%float 0%float loaded) in
  let env := sample_env (Some (sample_timestamp 1 0.5%float)) (Ok sample_control) SUCCESS in
  _running (state (_tick_scenario env (sample_timestamp 1 0.5%float) m)) = false.
Proof.
  cbv zeta.
  exact (proj1 (completed_tick_calls
                  (sample_env (Some (sample_timestamp 1 0.5%float)) (Ok sample_control) SUCCESS)
                  (sample_timestamp 1 0.5%float)
                  (state (run_scenario_start 100%float 0%float loaded))
                  eq_refl eq_refl eq_refl)).
Defined.

(** X4: when the agent call of a tick raises, the tick raises too and
    makes no further call: no control is applied, the tree is not
    evaluated, the spectator is not moved and the simulator is not
    advanced.  [_running] stays true and the frame counts as processed;
    the world watchdog is left paused and the agent watchdog unpaused. *)
Theorem agent_exception_ends_tick :
  forall (env : tick_env) (timestamp : Timestamp) (m : ScenarioManager) (e : exc),
    te_agent env = Raise e ->
    In EvAgentCall (events (log (_tick_scenario env timestamp m))) ->
    let r := _tick_scenario env timestamp m in
    value r <> Ok tt
    /\ existsb after_agent_event (events (log r)) = false
    /\ _running (state r) = true
    /\ _timestamp_last_run (state r) = elapsed_seconds timestamp
    /\ option_map wd_paused (_watchdog (state r)) = Some true
    /\ option_map wd_paused (_agent_watchdog (state r)) = Some false.
Proof.
  intros env timestamp m e He Hcall. cbv zeta.
  destruct (tick_agent env timestamp m) as [_ [H _]].
  rewrite He in H. destruct (H Hcall) as [A [B [C [D [E F]]]]].
  repeat split; assumption.
Qed.

Lemma agent_exception_ends_tick_witness :
  let r := _tick_scenario
             (sample_env (Some (sample_timestamp 1 0.5%float))
                (Raise ValueError_bad_steer) RUNNING)
             (sample_timestamp 1 0.5%float)
             (state (run_scenario_start 100%float 0%float loaded)) in
  existsb after_agent_event (events (log r)) = false /\ _running (state r) = true.
Proof.
  cbv zeta.
  assert (Hcall : In EvAgentCall
                    (events (log (_tick_scenario
                                    (sample_env (Some (sample_timestamp 1 0.5%float))
                                       (Raise ValueError_bad_steer) RUNNING)
                                    (sample_timestamp 1 0.5%float)
                                    (state (run_scenario_start 100%float 0%float loaded))))))
    by (vm_compute; tauto).
  destruct (agent_exception_ends_tick
              (sample_env (Some (sample_timestamp 1 0.5%float))
                 (Raise ValueError_bad_steer) RUNNING)
              (sample_timestamp 1 0.5%float)
              (state (run_scenario_start 100%float 0%float loaded))
              ValueError_bad_steer eq_refl Hcall) as [_ [A [B _]]].
  split; assumption.
Defined.

(** X5: every control a tick applies is the one the agent returned in
    that tick, and it is applied to the first ego vehicle. *)
Theorem control_is_the_agents :
  forall (env : tick_env) (timestamp : Timestamp) (m : ScenarioManager)
         (ego : Actor) (control : VehicleControl),
    In (EvApplyControl ego control) (events (log (_tick_scenario env timestamp m))) ->
    te_agent env = Ok control
    /\ exists rest, ego_vehicles m = Some (ego :: rest).
Proof.
  intros env timestamp m ego control H.
  destruct (tick_agent env timestamp m) as [H1 _]. exact (H1 ego control H).
Qed.

Lemma control_is_the_agents_witness :
  te_agent (sample_env (Some (sample_timestamp 1 0.5%float)) (Ok sample_control) RUNNING)
  = Ok sample_control
  /\ exists rest, ego_vehicles (state (run_scenario_start 100%float 0%float loaded))
                  = Some (1 :: rest).
Proof.
  apply (control_is_the_agents
           (sample_env (Some (sample_timestamp 1 0.5%float)) (Ok sample_control) RUNNING)
           (sample_timestamp 1 0.5%float)
           (state (run_scenario_start 100%float 0%float loaded))
           1 sample_control).
  vm_compute. tauto.
Defined.

(** X6: when no agent is set, as after [stop_scenario] has released it or
    when no scenario was loaded, a tick that enters the body with both
    watchdogs in place raises an AgentError that wraps the interpreter's
    TypeError, before any agent call and without any of the later calls. *)
Theorem missing_agent_is_AgentError :
  forall (env : tick_env) (timestamp : Timestamp) (m : ScenarioManager),
    _agent m = None ->
    PrimFloat.ltb (_timestamp_last_run m) (elapsed_seconds timestamp) = true ->
    _running m = true ->
    is_set (_watchdog m) = true ->
    is_set (_agent_watchdog m) = true ->
    let r := _tick_scenario env timestamp m in
    value r = Raise (ExcWrap AgentError_mro TypeError_not_callable)
    /\ ~ In EvAgentCall (events (log r))
    /\ existsb after_agent_event (events (log r)) = false.
Proof.
  intros env timestamp m Ha Hlt Hrun Hw Haw. cbv zeta.
  destruct (tick_agent env timestamp m) as [_ [_ [H _]]]. cbv zeta in H.
  rewrite Hlt, Hrun in H. exact (H Ha eq_refl Hw Haw).
Qed.

Lemma missing_agent_witness :
  value (_tick_scenario
           (sample_env (Some (sample_timestamp 3 1.5%float)) (Ok sample_control) RUNNING)
           (sample_timestamp 3 1.5%float) restarted)
  = Raise (ExcWrap AgentError_mro TypeError_not_callable).
Proof.
  exact (proj1 (missing_agent_is_AgentError
                  (sample_env (Some (sample_timestamp 3 1.5%float)) (Ok sample_control) RUNNING)
                  (sample_timestamp 3 1.5%float) restarted
                  eq_refl eq_refl eq_refl eq_refl eq_refl)).
Defined.

(** X7: a call of [_tick_scenario] never sets [_running]; it clears it
    only after evaluating the tree, when the status of the tree is not
    RUNNING. *)
Theorem running_cleared_by_tree_only :
  forall (env : tick_env) (timestamp : Timestamp) (m : ScenarioManager),
    let r := _tick_scenario env timestamp m in
    (_running (state r) = true -> _running m = true)
    /\ (_running m = true -> _running (state r) = false ->
        existsb is_tree_tick (events (log r)) = true
        /\ te_tree_status env <> RUNNING).
Proof.
  intros env timestamp m. cbv zeta.
  destruct (tick_shape env timestamp m) as [_ [_ [_ [_ [_ [H6 [H7 _]]]]]]].
  split; [exact H6|].
  intros Hm Hs. destruct (H7 Hm Hs) as [A B]. split; [exact A|].
  intros E. rewrite E in B. discriminate B.
Qed.

(** ** What a sequence of ticks keeps *)

Lemma events_has_start_or_stop_app (l1 l2 : trace) :
  existsb is_start_or_stop (events (l1 ++ l2))
  = existsb is_start_or_stop (events l1) || existsb is_start_or_stop (events l2).
Proof. rewrite events_app. apply existsb_app. Qed.

Lemma with_tick_attributes_trans (a b c : ScenarioManager) :
  b = with_tick_attributes b a -> c = with_tick_attributes c b ->
  c = with_tick_attributes c a.
Proof.
  intros Hb Hc. rewrite Hc at 1. rewrite Hb at 1.
  destruct a, b, c. reflexivity.
Qed.

Lemma tick_calls_frame (frames : list (tick_env * Timestamp)) :
  forall m,
    let m' := fst (tick_calls frames m) in
    let tr := snd (tick_calls frames m) in
    m' = with_tick_attributes m' m
    /\ existsb is_start_or_stop (events tr) = false
    /\ option_map wd_running (_watchdog m') = option_map wd_running (_watchdog m)
    /\ option_map wd_running (_agent_watchdog m')
       = option_map wd_running (_agent_watchdog m)
    /\ (_running m' = true -> _running m = true).
Proof.
  induction frames as [|[env timestamp] frames IH]; intros m; cbv zeta.
  - cbn [tick_calls fst snd]. repeat split; auto. destruct m; reflexivity.
  - cbn [tick_calls fst snd].
    destruct (tick_shape env timestamp m) as [_ [_ [_ [S4 [S5 [S6 [_ [S8 S9]]]]]]]].
    specialize (IH (state (_tick_scenario env timestamp m))).
    cbv zeta in IH. destruct IH as [I1 [I2 [I3 [I4 I5]]]].
    split; [|split; [|split; [|split]]].
    + exact (with_tick_attributes_trans _ _ _ S5 I1).
    + now rewrite events_has_start_or_stop_app, S4, I2.
    + now rewrite I3.
    + now rewrite I4.
    + auto.
Qed.

Lemma with_tick_attributes_others (s m : ScenarioManager) :
  s = with_tick_attributes s m ->
  scenario s = scenario m
  /\ scenario_tree s = scenario_tree m
  /\ scenario_class s = scenario_class m
  /\ ego_vehicles s = ego_vehicles m
  /\ other_actors s = other_actors m
  /\ repetition_number s = repetition_number m
  /\ _debug_mode s = _debug_mode m
  /\ _agent s = _agent m
  /\ _timeout s = _timeout m
  /\ _spectator s = _spectator m
  /\ start_system_time s = start_system_time m
  /\ start_game_time s = start_game_time m
  /\ end_system_time s = end_system_time m
  /\ end_game_time s = end_game_time m
  /\ scenario_duration_system s = scenario_duration_system m
  /\ scenario_duration_game s = scenario_duration_game m.
Proof. intros ->. destruct s, m. repeat split. Qed.

(** X8: over any sequence of calls of [_tick_scenario], whatever each one
    returns or raises, only [_running], [_timestamp_last_run] and the two
    watchdog attributes can change: the scenario, the agent, the actors,
    the spectator, the timeout and the recorded times and durations are
    as before.  No watchdog is started or stopped, and each keeps its
    running flag; [_running] is never set. *)
Theorem ticks_keep_the_manager :
  forall (frames : list (tick_env * Timestamp)) (m : ScenarioManager),
    let m' := fst (tick_calls frames m) in
    let tr := snd (tick_calls frames m) in
    (scenario m' = scenario m
     /\ scenario_tree m' = scenario_tree m
     /\ scenario_class m' = scenario_class m
     /\ ego_vehicles m' = ego_vehicles m
     /\ other_actors m' = other_actors m
     /\ repetition_number m' = repetition_number m
     /\ _debug_mode m' = _debug_mode m
     /\ _agent m' = _agent m
     /\ _timeout m' = _timeout m
     /\ _spectator m' = _spectator m
     /\ start_system_time m' = start_system_time m
     /\ start_game_time m' = start_game_time m
     /\ end_system_time m' = end_system_time m
     /\ end_game_time m' = end_game_time m
     /\ scenario_duration_system m' = scenario_duration_system m
     /\ scenario_duration_game m' = scenario_duration_game m)
    /\ existsb is_start_or_stop (events tr) = false
    /\ option_map wd_running (_watchdog m') = option_map wd_running (_watchdog m)
    /\ option_map wd_running (_agent_watchdog m')
       = option_map wd_running (_agent_watchdog m)
    /\ (_running m' = true -> _running m = true).
Proof.
  intros frames m. cbv zeta.
  destruct (tick_calls_frame frames m) as [F1 [F2 [F3 [F4 F5]]]].
  split; [|repeat split; assumption].
  exact (with_tick_attributes_others _ _ F1).
Qed.

(** X9: over any sequence of calls of [_tick_scenario],
    [_timestamp_last_run] never goes back, every timestamp ticked is
    later than its value before the calls, and none is later than its
    value after them. *)
Theorem last_run_never_goes_back :
  forall (frames : list (tick_env * Timestamp)) (m : ScenarioManager),
    let m' := fst (tick_calls frames m) in
    let l := ticked (events (snd (tick_calls frames m))) in
    (_timestamp_last_run m = _timestamp_last_run m'
     \/ PrimFloat.ltb (_timestamp_last_run m) (_timestamp_last_run m') = true)
    /\ Forall (fun t => PrimFloat.ltb (_timestamp_last_run m) t = true) l
    /\ Forall (fun t => t = _timestamp_last_run m'
                        \/ PrimFloat.ltb t (_timestamp_last_run m') = true) l.
Proof.
  intros frames m. cbv zeta.
  destruct (tick_calls_timestamps frames m) as [_ [A [B C]]].
  repeat split; assumption.
Qed.

(** ** A frame without a time *)

Lemma SFltb_nan_r (x : spec_float) : SFltb x S754_nan = false.
Proof. destruct x; reflexivity. Qed.

Lemma SFeqb_refl_false (x : spec_float) : SFeqb x x = false -> x = S754_nan.
Proof.
  unfold SFeqb, SFcompare.
  destruct x as [s|s| |s m e]; try destruct s; try discriminate; try reflexivity;
    rewrite Z.compare_refl, Pos.compare_cont_refl; discriminate.
Qed.

Lemma float_ltb_nan (x y : float) : PrimFloat.is_nan y = true -> PrimFloat.ltb x y = false.
Proof.
  unfold PrimFloat.is_nan. intros H. apply negb_true_iff in H.
  rewrite FloatAxioms.eqb_spec in H. apply SFeqb_refl_false in H.
  rewrite FloatAxioms.ltb_spec, H. apply SFltb_nan_r.
Qed.

(** X10: a frame whose [elapsed_seconds] is NaN is never ticked: the call
    leaves the attributes as they are and makes none of the calls of a
    tick body. *)
Theorem nan_frame_is_skipped :
  forall (env : tick_env) (timestamp : Timestamp) (m : ScenarioManager),
    PrimFloat.is_nan (elapsed_seconds timestamp) = true ->
    let r := _tick_scenario env timestamp m in
    state r = m /\ existsb tick_body_event (events (log r)) = false.
Proof.
  intros env timestamp m Hnan. cbv zeta.
  destruct (tick_timestamps env timestamp m) as [_ [H _]]. cbv zeta in H.
  rewrite (float_ltb_nan _ _ Hnan) in H. destruct (H eq_refl) as [Hs [_ Hl]].
  split; [exact Hs|]. destruct Hl as [->| ->]; reflexivity.
Qed.

Lemma nan_frame_witness :
  state (_tick_scenario
           (sample_env (Some (sample_timestamp 1 nan)) (Ok sample_control) RUNNING)
           (sample_timestamp 1 nan)
           (state (run_scenario_start 100%float 0%float loaded)))
  = state (run_scenario_start 100%float 0%float loaded).
Proof.
  exact (proj1 (nan_frame_is_skipped
                  (sample_env (Some (sample_timestamp 1 nan)) (Ok sample_control) RUNNING)
                  (sample_timestamp 1 nan)
                  (state (run_scenario_start 100%float 0%float loaded)) eq_refl)).
Defined.

(** ** Runs and what follows them *)

Lemma stop_scenario_statistics (env : stop_env) (m : ScenarioManager)
    (start_system start_game : float) :
  start_system_time m = Some start_system ->
  start_game_time m = Some start_game ->
  holds (stop_scenario env) m
    (fun v s _ =>
       end_system_time s = Some (time_time env)
       /\ end_game_time s = Some (GameTime_get_time env)
       /\ scenario_duration_system s = (time_time env - start_system)%float
       /\ scenario_duration_game s = (GameTime_get_time env - start_game)%float
       /\ _watchdog s = option_map wd_stop (_watchdog m)
       /\ _agent_watchdog s = option_map wd_stop (_agent_watchdog m)
       /\ (v = Ok tt \/ scenario m = None)).
Proof.
  intros Hsys Hgame. explicit_manager m. destruct env as [now game_now st].
  cbn in Hsys, Hgame. subst ssys sgame.
  destruct wd as [[wi wr wp we]|], awd as [[ai ar ap ae]|].
  all: steps.
  all: cbn [option_map]; repeat split; auto.
Qed.

Lemma with_tick_attributes_start_times (s m : ScenarioManager) :
  s = with_tick_attributes s m ->
  start_system_time s = start_system_time m
  /\ start_game_time s = start_game_time m
  /\ scenario s = scenario m.
Proof. intros ->. destruct s, m. repeat split. Qed.

Lemma option_map_is_set {A B} (f : A -> B) (a b : option A) :
  option_map f a = option_map f b -> is_set a = is_set b.
Proof. destruct a, b; simpl; congruence. Qed.

Lemma run_scenario_keeps_start (now game_now : float) (polls : list tick_env)
    (m : ScenarioManager) :
  let s := state (run_scenario now game_now polls m) in
  start_system_time s = Some now
  /\ start_game_time s = Some game_now
  /\ scenario s = scenario m
  /\ option_map wd_running (_watchdog s) = Some true
  /\ option_map wd_running (_agent_watchdog s) = Some true.
Proof.
  cbv zeta.
  destruct (run_scenario_split now game_now polls m) as [_ [Hs _]].
  cbv zeta in Hs. rewrite Hs. clear Hs.
  assert (H0 : holds (run_scenario_start now game_now) m
                 (fun _ s _ =>
                    start_system_time s = Some now
                    /\ start_game_time s = Some game_now
                    /\ scenario s = scenario m
                    /\ option_map wd_running (_watchdog s) = Some true
                    /\ option_map wd_running (_agent_watchdog s) = Some true)).
  { explicit_manager m. steps. repeat split. }
  unfold holds in H0. destruct H0 as [A [B [C [D E]]]].
  set (m0 := state (run_scenario_start now game_now m)) in *.
  destruct (run_loop_tick_calls polls m0) as [frames [Hs _]]. rewrite Hs.
  destruct (tick_calls_frame frames m0) as [F1 [_ [F3 [F4 _]]]].
  destruct (with_tick_attributes_start_times _ _ F1) as [G1 [G2 G3]].
  rewrite G1, G2, G3, F3, F4. repeat split; assumption.
Qed.

(** X11: however a run ends, returning, still polling or through an
    exception, a [stop_scenario] after it computes the statistics: the end
    times are its clock readings and the durations are measured from the
    clock readings at the start of the run.  It leaves both watchdogs
    stopped, and raises only when no scenario is loaded and the status
    check passes. *)
Theorem stop_after_run_has_statistics :
  forall (now game_now : float) (polls : list tick_env) (env : stop_env)
         (m : ScenarioManager),
    let r1 := run_scenario now game_now polls m in
    let r2 := stop_scenario env (state r1) in
    end_system_time (state r2) = Some (time_time env)
    /\ end_game_time (state r2) = Some (GameTime_get_time env)
    /\ scenario_duration_system (state r2) = (time_time env - now)%float
    /\ scenario_duration_game (state r2) = (GameTime_get_time env - game_now)%float
    /\ option_map wd_running (_watchdog (state r2)) = Some false
    /\ option_map wd_running (_agent_watchdog (state r2)) = Some false
    /\ both_active (state r2) = false
    /\ (value r2 = Ok tt \/ scenario m = None).
Proof.
  intros now game_now polls env m. cbv zeta.
  destruct (run_scenario_keeps_start now game_now polls m) as [A [B [C [D E]]]].
  cbv zeta in A, B, C, D, E.
  set (s1 := state (run_scenario now game_now polls m)) in *.
  pose proof (stop_scenario_statistics env s1 now game_now A B) as H.
  unfold holds in H. destruct H as [H1 [H2 [H3 [H4 [H5 [H6 H7]]]]]].
  set (s2 := state (stop_scenario env s1)) in *.
  assert (Hw : option_map wd_running (_watchdog s2) = Some false).
  { rewrite H5. destruct (_watchdog s1); [reflexivity | discriminate D]. }
  assert (Ha : option_map wd_running (_agent_watchdog s2) = Some false).
  { rewrite H6. destruct (_agent_watchdog s1); [reflexivity | discriminate E]. }
  repeat split; try assumption.
  - unfold both_active, wd_active.
    destruct (_watchdog s2) as [w|]; [|reflexivity].
    destruct (_agent_watchdog s2) as [a|]; [|reflexivity].
    cbn in Hw. injection Hw as ->. reflexivity.
  - destruct H7 as [H7|H7]; [left; exact H7 | right; now rewrite <- C].
Qed.

(** X12: [run_scenario] starts from fresh watchdogs built from the
    manager's timeout, whatever the earlier ones had come to: right after
    the start the status check passes, and an interrupt is taken as a
    cancellation. *)
Theorem run_starts_healthy :
  forall (now game_now : float) (m : ScenarioManager),
    let s := state (run_scenario_start now game_now m) in
    _watchdog s = Some (wd_start (Watchdog_new (_timeout m)))
    /\ _agent_watchdog s = Some (wd_start (Watchdog_new (_timeout m)))
    /\ get_running_status s = true
    /\ value (signal_handler s) = Ok tt
    /\ _running (state (signal_handler s)) = false.
Proof.
  intros now game_now m. cbv zeta. explicit_manager m. repeat split.
Qed.

(** X13: [cleanup] undoes what a run and a stop recorded: after it the
    status check fails, an interrupt is a plain cancellation, and a
    [stop_scenario] raises the TypeError of the missing start time without
    a call to any collaborator, whatever the state before.  It keeps the
    scenario, the agent and [_running], and a second [cleanup] changes
    nothing. *)
Theorem cleanup_forgets_the_run :
  forall (m : ScenarioManager) (env : stop_env),
    let s := state (cleanup m) in
    get_running_status s = false
    /\ value (signal_handler s) = Ok tt
    /\ value (stop_scenario env s) = Raise TypeError_float_minus_None
    /\ log (stop_scenario env s) = []
    /\ state (cleanup s) = s
    /\ scenario s = scenario m /\ _agent s = _agent m /\ _running s = _running m.
Proof.
  intros m env. cbv zeta. explicit_manager m. repeat split.
Qed.

(** ** The verdict *)

Lemma global_result_of_spec (st : ScenarioState) :
  global_result_of st
  = if forallb (fun c => String.eqb (test_status c) "SUCCESS") (get_criteria st)
       && negb (timeout_node_timeout st)
    then GREEN_SUCCESS else RED_FAILURE.
Proof.
  unfold global_result_of. rewrite fold_criteria_spec.
  destruct (forallb _ _), (timeout_node_timeout st); reflexivity.
Qed.

Lemma forallb_Permutation {A} (f : A -> bool) (l l' : list A) :
  Permutation l l' -> forallb f l = forallb f l'.
Proof.
  induction 1; simpl; try congruence.
  now rewrite !andb_assoc, (andb_comm (f y)).
Qed.

(** X14: the verdict does not depend on the order in which the scenario
    lists its criteria, and more criteria can only turn it from SUCCESS to
    FAILURE: a list judged SUCCESS has every part of it judged SUCCESS.
    With no criterion at all the verdict is SUCCESS unless the timeout
    flag is set. *)
Theorem verdict_order_and_growth :
  (forall (cs cs' : list Criterion) (timed_out : bool),
      Permutation cs cs' ->
      global_result_of {| get_criteria := cs; timeout_node_timeout := timed_out |}
      = global_result_of {| get_criteria := cs'; timeout_node_timeout := timed_out |})
  /\ (forall (cs cs' : list Criterion) (timed_out : bool),
        global_result_of {| get_criteria := cs ++ cs'; timeout_node_timeout := timed_out |}
        = GREEN_SUCCESS ->
        global_result_of {| get_criteria := cs; timeout_node_timeout := timed_out |}
        = GREEN_SUCCESS
        /\ global_result_of {| get_criteria := cs'; timeout_node_timeout := timed_out |}
           = GREEN_SUCCESS)
  /\ (forall timed_out : bool,
        global_result_of {| get_criteria := []; timeout_node_timeout := timed_out |}
        = if timed_out then RED_FAILURE else GREEN_SUCCESS).
Proof.
  split; [|split].
  - intros cs cs' timed_out HP. rewrite !global_result_of_spec.
    cbn [get_criteria timeout_node_timeout].
    now rewrite (forallb_Permutation _ _ _ HP).
  - intros cs cs' timed_out. rewrite !global_result_of_spec.
    cbn [get_criteria timeout_node_timeout]. rewrite forallb_app.
    destruct (forallb _ cs), (forallb _ cs'), timed_out; cbn [andb negb];
      intros H; try discriminate H; split; reflexivity.
  - intros []; reflexivity.
Qed.

Lemma verdict_order_witness :
  global_result_of
    {| get_criteria := [ {| criterion_name := "CollisionTest"; test_status := "FAILURE" |};
                         {| criterion_name := "RouteCompletionTest"; test_status := "SUCCESS" |} ];
       timeout_node_timeout := false |}
  = global_result_of
      {| get_criteria := [ {| criterion_name := "RouteCompletionTest"; test_status := "SUCCESS" |};
                           {| criterion_name := "CollisionTest"; test_status := "FAILURE" |} ];
         timeout_node_timeout := false |}.
Proof.
  apply (proj1 verdict_order_and_growth). apply perm_swap.
Defined.

(** ** Loading *)

(** X15: [load_scenario] returns exactly when the data provider holds a
    world and the scenario has an ego vehicle; it then has restarted the
    game clock and set up the sensors on the first ego vehicle with the
    manager's debug flag, and nothing else.  Whether it returns or raises,
    the scenario and the wrapped agent have replaced the earlier ones, and
    the running flag, the timing attributes and the watchdogs are as
    before. *)
Theorem load_scenario_returns_iff :
  forall (world : option World) (sc : ScenarioClass) (agent : Agent)
         (rep_number : Z) (m : ScenarioManager),
    let r := load_scenario world sc agent rep_number m in
    (value r = Ok tt <-> is_set world = true /\ sc_ego_vehicles sc <> [])
    /\ (value r = Ok tt ->
        exists ego rest,
          sc_ego_vehicles sc = ego :: rest
          /\ events (log r) = [EvGameTimeRestart; EvSetupSensors ego (_debug_mode m)])
    /\ scenario_class (state r) = Some sc
    /\ scenario (state r) = Some (sc_scenario sc)
    /\ scenario_tree (state r) = Some (sc_scenario_tree (sc_scenario sc))
    /\ ego_vehicles (state r) = Some (sc_ego_vehicles sc)
    /\ _agent (state r) = Some {| wrapped_agent := agent |}
    /\ _running (state r) = _running m
    /\ _watchdog (state r) = _watchdog m
    /\ _agent_watchdog (state r) = _agent_watchdog m
    /\ start_system_time (state r) = start_system_time m
    /\ scenario_duration_system (state r) = scenario_duration_system m.
Proof.
  intros world [inner sc_egos sc_others] new_agent rep_number m. cbv zeta.
  explicit_manager m.
  destruct world as [w|], sc_egos as [|ego rest];
    cbn [sc_ego_vehicles is_set];
    repeat split; intros; try discriminate; try tauto; eauto.
  all: try (destruct H as [H1 H2]; try discriminate H1; now destruct H2).
Qed.

(** ** A run to the end of the tree *)

Lemma tick_ready (env : tick_env) (timestamp : Timestamp) (m : ScenarioManager) :
  _running m = true ->
  PrimFloat.ltb (_timestamp_last_run m) (elapsed_seconds timestamp) = true ->
  ready m ->
  is_set (_watchdog m) = true ->
  is_set (_agent_watchdog m) = true ->
  is_set (te_world env) = true ->
  (exists control, te_agent env = Ok control) ->
  holds (_tick_scenario env timestamp) m
    (fun v s l =>
       v = Ok tt
       /\ _running s = Status_eqb (te_tree_status env) RUNNING
       /\ _timestamp_last_run s = elapsed_seconds timestamp
       /\ ready s
       /\ is_set (_watchdog s) = true
       /\ is_set (_agent_watchdog s) = true
       /\ ticked (events l) = [elapsed_seconds timestamp]
       /\ List.length (filter is_agent_call (events l)) = 1
       /\ List.length (filter is_world_tick (events l))
          = if Status_eqb (te_tree_status env) RUNNING then 1 else 0).
Proof.
  intros Hrun Hlt [Hag [[ego [rest Hego]] [Htree Hspect]]] Hw Haw Hworld [control Hc].
  explicit_manager m. destruct env as [world agent_result status location].
  cbn in Hrun, Hlt, Hag, Hego, Htree, Hspect, Hw, Haw, Hworld, Hc.
  subst running egos agent_result.
  destruct agent as [ag|]; [|discriminate Hag].
  destruct tree as [t|]; [|discriminate Htree].
  destruct spect as [sp|]; [|discriminate Hspect].
  destruct wd as [[wi wr wp we]|]; [|discriminate Hw].
  destruct awd as [[ai ar ap ae]|]; [|discriminate Haw].
  destruct world as [w|]; [|discriminate Hworld].
  unfold ready. steps.
  all: try congruence.
  all: cbn [events map fst ticked filter is_agent_call is_world_tick List.length app];
    attrs;
    repeat match goal with
      | E : negb ?b = _ |- _ => destruct b; cbn [negb] in E; try discriminate E
      end;
    repeat split; eauto.
Qed.

Lemma run_loop_ticks_on (env : tick_env) (polls : list tick_env)
    (timestamp : Timestamp) (m : ScenarioManager) :
  _running m = true ->
  current_timestamp env = Some timestamp ->
  value (_tick_scenario env timestamp m) = Ok tt ->
  let r1 := _tick_scenario env timestamp m in
  holds (run_loop (env :: polls)) m
    (fun v s l =>
       v = value (run_loop polls (state r1))
       /\ s = state (run_loop polls (state r1))
       /\ l = log r1 ++ log (run_loop polls (state r1))).
Proof.
  intros Hrun Hts Hv. cbv zeta.
  cbn [run_loop]. apply holds_bind, holds_gets. cbv beta iota. rewrite Hrun.
  apply holds_bind. rewrite Hts. unfold holds at 1. rewrite Hv.
  unfold holds. cbn [app]. repeat split.
Qed.

Lemma frame_at_timestamp (env : tick_env) (t : float) (status : Status) :
  frame_at env t status ->
  exists timestamp,
    current_timestamp env = Some timestamp
    /\ elapsed_seconds timestamp = t
    /\ is_set (te_world env) = true.
Proof.
  intros [[world [timestamp [H1 [H2 H3]]]] _].
  exists timestamp. unfold current_timestamp. rewrite H1. auto.
Qed.

Lemma filter_events_app (p : event -> bool) (l1 l2 : trace) :
  List.length (filter p (events (l1 ++ l2)))
  = List.length (filter p (events l1)) + List.length (filter p (events l2)).
Proof. now rewrite events_app, filter_app, length_app. Qed.

Lemma run_loop_until_done (frames : list tick_env) (times : list float) :
  Forall2 (fun env t => frame_at env t RUNNING) frames times ->
  forall (m : ScenarioManager) (final : tick_env) (t_final : float)
         (status : Status) (more : list tick_env),
    frame_at final t_final status ->
    status <> RUNNING ->
    StronglySorted (fun a b => PrimFloat.ltb a b = true) (times ++ [t_final]) ->
    Forall (fun t => PrimFloat.ltb (_timestamp_last_run m) t = true) (times ++ [t_final]) ->
    _running m = true ->
    ready m ->
    is_set (_watchdog m) = true ->
    is_set (_agent_watchdog m) = true ->
    let r := run_loop (frames ++ final :: more) m in
    value r = Ok Finished
    /\ _running (state r) = false
    /\ ticked (events (log r)) = times ++ [t_final]
    /\ List.length (filter is_agent_call (events (log r))) = S (List.length frames)
    /\ List.length (filter is_world_tick (events (log r))) = List.length frames.
Proof.
  induction 1 as [|env t frames times Hframe Hrest IH];
    intros m final t_final status more Hfinal Hstatus Hsorted Hlater Hrun Hready Hw Haw;
    cbv zeta.
  - cbn [app] in *.
    destruct (frame_at_timestamp _ _ _ Hfinal) as [timestamp [Hts [Ht Hworld]]].
    destruct Hfinal as [_ [Hcontrol Hst]].
    inversion Hlater as [|? ? Hlt _]; subst.
    pose proof (tick_ready final timestamp m Hrun Hlt Hready Hw Haw Hworld Hcontrol) as T.
    unfold holds in T. destruct T as [Tv [Tr [_ [_ [_ [_ [Tt [Ta Tw]]]]]]]].
    pose proof (run_loop_ticks_on final more timestamp m Hrun Hts Tv) as L.
    cbv zeta in L. unfold holds in L. destruct L as [Lv [Ls Ll]].
    assert (Hstop : _running (state (_tick_scenario final timestamp m)) = false).
    { rewrite Tr. destruct (te_tree_status final); try reflexivity. now contradiction Hstatus. }
    destruct (run_loop_not_running more _ Hstop) as [Nv [Ns Nl]].
    rewrite Lv, Ls, Ll, Nv, Ns, Nl, app_nil_r, Tt, Ta, Tw.
    destruct (te_tree_status final); try (now contradiction Hstatus); auto.
  - cbn [app] in *.
    destruct (frame_at_timestamp _ _ _ Hframe) as [timestamp [Hts [Ht Hworld]]].
    destruct Hframe as [_ [Hcontrol Hst]].
    inversion Hlater as [|? ? Hlt _]; subst.
    inversion Hsorted as [|? ? Hsorted' Hafter]; subst.
    pose proof (tick_ready env timestamp m Hrun Hlt Hready Hw Haw Hworld Hcontrol) as T.
    unfold holds in T. destruct T as [Tv [Tr [Tl [Trd [Tw' [Ta' [Tt [Ta Tw]]]]]]]].
    pose proof (run_loop_ticks_on env (frames ++ final :: more) timestamp m Hrun Hts Tv) as L.
    cbv zeta in L. unfold holds in L. destruct L as [Lv [Ls Ll]].
    rewrite Hst in Tr, Tw. cbn [Status_eqb] in Tr, Tw.
    rewrite <- Tl in Hafter.
    specialize (IH (state (_tick_scenario env timestamp m)) final t_final status more
                  Hfinal Hstatus Hsorted' Hafter Tr Trd Tw' Ta').
    cbv zeta in IH. destruct IH as [I1 [I2 [I3 [I4 I5]]]].
    rewrite Lv, Ls, Ll, !filter_events_app, events_app, ticked_app, Tt, Ta, Tw, I3, I4, I5.
    cbn [List.length]. repeat split; auto.
Qed.

Lemma run_scenario_start_ready (now game_now : float) (m : ScenarioManager) :
  ready m ->
  holds (run_scenario_start now game_now) m
    (fun _ s l =>
       _running s = true /\ ready s
       /\ is_set (_watchdog s) = true /\ is_set (_agent_watchdog s) = true
       /\ _timestamp_last_run s = _timestamp_last_run m
       /\ ticked (events l) = []
       /\ List.length (filter is_agent_call (events l)) = 0
       /\ List.length (filter is_world_tick (events l)) = 0).
Proof.
  intros [Hag [[ego [rest Hego]] [Htree Hspect]]].
  explicit_manager m. cbn in Hag, Hego, Htree, Hspect.
  unfold ready. steps. repeat split; eauto.
Qed.

(** X16: a run of a manager that has its agent, ego vehicle, tree and
    spectator, on frames with increasing times later than the last one
    processed, an agent that returns, and a tree that stays RUNNING on all
    frames but the last, ticks every one of these frames once, in order.
    It calls the agent once per frame and advances the simulator after
    every frame but the last; then it returns with [_running] false, and
    the polls after the last frame are not looked at. *)
Theorem run_until_tree_is_done :
  forall (now game_now : float) (m : ScenarioManager)
         (frames : list tick_env) (times : list float)
         (final : tick_env) (t_final : float) (status : Status)
         (more : list tick_env),
    ready m ->
    Forall2 (fun env t => frame_at env t RUNNING) frames times ->
    frame_at final t_final status ->
    status <> RUNNING ->
    StronglySorted (fun a b => PrimFloat.ltb a b = true) (times ++ [t_final]) ->
    Forall (fun t => PrimFloat.ltb (_timestamp_last_run m) t = true) (times ++ [t_final]) ->
    let r := run_scenario now game_now (frames ++ final :: more) m in
    value r = Ok Finished
    /\ _running (state r) = false
    /\ ticked (events (log r)) = times ++ [t_final]
    /\ List.length (filter is_agent_call (events (log r))) = S (List.length frames)
    /\ List.length (filter is_world_tick (events (log r))) = List.length frames.
Proof.
  intros now game_now m frames times final t_final status more
         Hready Hframes Hfinal Hstatus Hsorted Hlater. cbv zeta.
  destruct (run_scenario_split now game_now (frames ++ final :: more) m) as [Hv [Hs Hl]].
  cbv zeta in Hv, Hs, Hl. rewrite Hv, Hs, Hl. clear Hv Hs Hl.
  pose proof (run_scenario_start_ready now game_now m Hready) as S0.
  unfold holds in S0. destruct S0 as [S1 [S2 [S3 [S4 [S5 [S6 [S7 S8]]]]]]].
  rewrite <- S5 in Hlater.
  destruct (run_loop_until_done frames times Hframes _ final t_final status more
              Hfinal Hstatus Hsorted Hlater S1 S2 S3 S4) as [R1 [R2 [R3 [R4 R5]]]].
  rewrite !filter_events_app, events_app, ticked_app, S6, S7, S8, R3, R4, R5.
  repeat split; auto.
Qed.

Lemma run_until_tree_is_done_witness :
  let r := run_scenario 100%float 0%float
             [sample_env (Some (sample_timestamp 1 0.5%float)) (Ok sample_control) RUNNING;
              sample_env (Some (sample_timestamp 2 1%float)) (Ok sample_control) RUNNING;
              sample_env (Some (sample_timestamp 3 1.5%float)) (Ok sample_control) SUCCESS;
              sample_env (Some (sample_timestamp 4 2%float)) (Ok sample_control) SUCCESS]
             loaded in
  value r = Ok Finished
  /\ ticked (events (log r)) = [0.5%float; 1%float; 1.5%float].
Proof.
  cbv zeta.
  assert (Hready : ready loaded).
  { split; [reflexivity|]. split; [exists 1, []; reflexivity|]. split; reflexivity. }
  assert (Hframe : forall n t status,
             frame_at (sample_env (Some (sample_timestamp n t)) (Ok sample_control) status)
               t status).
  { intros n t status. split; [|split].
    - exists (sample_world (Some (sample_timestamp n t))), (sample_timestamp n t).
      repeat split.
    - exists sample_control. reflexivity.
    - reflexivity. }
  assert (Hframes : Forall2 (fun env t => frame_at env t RUNNING)
                      [sample_env (Some (sample_timestamp 1 0.5%float)) (Ok sample_control) RUNNING;
                       sample_env (Some (sample_timestamp 2 1%float)) (Ok sample_control) RUNNING]
                      [0.5%float; 1%float]).
  { constructor; [apply Hframe|]. constructor; [apply Hframe|]. constructor. }
  destruct (run_until_tree_is_done 100%float 0%float loaded
              [sample_env (Some (sample_timestamp 1 0.5%float)) (Ok sample_control) RUNNING;
               sample_env (Some (sample_timestamp 2 1%float)) (Ok sample_control) RUNNING]
              [0.5%float; 1%float]
              (sample_env (Some (sample_timestamp 3 1.5%float)) (Ok sample_control) SUCCESS)
              1.5%float SUCCESS
              [sample_env (Some (sample_timestamp 4 2%float)) (Ok sample_control) SUCCESS]
              Hready Hframes (Hframe _ _ _))
    as [H1 [_ [H3 _]]].
  - discriminate.
  - repeat constructor.
  - repeat constructor.
  - split; [exact H1 | exact H3].
Defined.

(** X17: as long as the data provider shows no world or the world no
    snapshot, the loop of [run_scenario] makes no call at all and changes
    no attribute; it keeps polling. *)
Theorem no_snapshot_keeps_polling :
  forall (polls : list tick_env) (m : ScenarioManager),
    _running m = true ->
    Forall (fun env => current_timestamp env = None) polls ->
    let r := run_loop polls m in
    value r = Ok Polling /\ state r = m /\ log r = [].
Proof.
  intros polls m Hrun Hnone. cbv zeta.
  change (holds (run_loop polls) m (fun v s l => v = Ok Polling /\ s = m /\ l = [])).
  induction Hnone as [|env polls Henv _ IH].
  - cbn [run_loop]. apply holds_bind, holds_gets. cbv beta iota. rewrite Hrun.
    apply holds_ret. repeat split.
  - cbn [run_loop]. apply holds_bind, holds_gets. cbv beta iota. rewrite Hrun.
    apply holds_bind. rewrite Henv. apply holds_ret. cbv beta iota. cbn [app].
    exact IH.
Qed.

Lemma no_snapshot_witness :
  value (run_loop [sample_env None (Ok sample_control) RUNNING;
                   sample_env None (Ok sample_control) RUNNING]
           (state (run_scenario_start 100%float 0%float loaded)))
  = Ok Polling.
Proof.
  apply (no_snapshot_keeps_polling
           [sample_env None (Ok sample_control) RUNNING;
            sample_env None (Ok sample_control) RUNNING]
           (state (run_scenario_start 100%float 0%float loaded)) eq_refl).
  repeat constructor.
Defined.

(** ** The check of [stop_scenario] on a stopped watchdog *)

(** X18: [stop_scenario] stops the world watchdog before it asks for its
    status, and a stopped watchdog reports [True] (spec 4.1).  So the
    check passes exactly when a world watchdog is set, also when that
    watchdog had expired before the call: with the start times and a
    scenario set, the call returns, the scenario is terminated, the agent,
    if set, is released and the verdict is reported. *)
Theorem stop_scenario_after_expiry :
  forall (env : stop_env) (m : ScenarioManager),
    let r := stop_scenario env m in
    let tested := state (before_status_check env m) in
    get_running_status tested = is_set (_watchdog m)
    /\ (forall start_system start_game : float,
          is_set (_watchdog m) = true ->
          start_system_time m = Some start_system ->
          start_game_time m = Some start_game ->
          is_set (scenario m) = true ->
          value r = Ok tt
          /\ In EvTerminate (events (log r))
          /\ In (EvReport (global_result_of (scenario_state env))) (events (log r))
          /\ (is_set (_agent m) = true ->
              In EvAgentCleanup (events (log r)) /\ _agent (state r) = None)).
Proof.
  intros env m. cbv zeta. split.
  - rewrite (proj2 (before_status_check_status env m)).
    destruct (_watchdog m) as [[wi wr wp [|]]|]; reflexivity.
  - intros start_system start_game Hw Hsys Hgame Hsc.
    explicit_manager m. destruct env as [now game_now st].
    cbn in Hw, Hsys, Hgame, Hsc. subst ssys sgame.
    to_holds (stop_scenario {| time_time := now; GameTime_get_time := game_now;
                              scenario_state := st |}).
    destruct wd as [[wi wr wp [|]]|]; [| |discriminate Hw].
    all: destruct sc as [tree_sc|]; [|discriminate Hsc].
    all: destruct awd as [[ai ar ap ae]|].
    all: steps.
    all: cbn [events map fst In]; attrs;
      repeat split; intros; try discriminate; auto.
    all: tauto.
Qed.

Lemma stop_scenario_after_expiry_witness :
  let r := stop_scenario (stop_at 110%float 0.5%float) after_stall in
  watchdog_expired (_watchdog after_stall)
  /\ value r = Ok tt
  /\ In EvTerminate (events (log r))
  /\ In (EvReport GREEN_SUCCESS) (events (log r))
  /\ In EvAgentCleanup (events (log r)).
Proof.
  cbv zeta.
  destruct (stop_scenario_after_expiry (stop_at 110%float 0.5%float) after_stall)
    as [_ H].
  destruct (H 100%float 0%float eq_refl eq_refl eq_refl eq_refl) as [Hv [Ht [Hr Ha]]].
  split; [apply watchdog_expired_iff; reflexivity|].
  split; [exact Hv|]. split; [exact Ht|]. split; [exact Hr|].
  exact (proj1 (Ha eq_refl)).
Defined.
